(** * AI inference gateway ([ai/api/server.py])

    A shallow embedding of the authentication helpers, the token
    helpers and the two protected endpoints of the server, followed by
    the properties of the gateway specification that were checked
    against them.

    Conventions.
    - Wall-clock time is a number of seconds ([Z]); every function that
      reads [datetime.utcnow()] takes the current time as an argument.
    - Python exceptions are values of [exn]; a call either returns or
      raises ([outcome]).
    - The third-party libraries the module calls are interfaces: type
      classes for jose and passlib, a record for the loaded torch model,
      and a fixed-window limiter for slowapi. An executable HS256
      instance of the token interface reads and writes the tokens the
      module issues. *)

From Stdlib Require Import ZArith Ascii String List.
From stdpp Require Import base option gmap strings pretty list.

Local Open Scope string_scope.
Local Open Scope Z_scope.

(** ** Exceptions and outcomes *)

(** The three exception classes of [jose.exceptions]; the last two
    derive from [JWTError]. *)
Inductive JoseError : Type :=
  | JWTError
  | ExpiredSignatureError
  | JWTClaimsError.

(** The exceptions [CryptContext.verify] raises instead of answering:
    a password it refuses (a NUL byte), a password beyond the size
    limit, a stored hash it cannot identify. *)
Inductive PasslibError : Type :=
  | PasswordValueError
  | PasswordSizeError
  | UnknownHashError.

Inductive exn : Type :=
  | HTTPException (status_code : Z) (detail : string)
                  (headers : list (string * string))
  | JoseException (e : JoseError)
  | PasslibException (e : PasslibError)
  | RateLimitExceeded (retry_after : Z)
  | RuntimeError (msg : string)
  | PyException (msg : string).

(** [isinstance(e, JWTError)] *)
Definition is_JWTError (e : exn) : bool :=
  match e with
  | JoseException _ => true
  | _ => false
  end.

(** [isinstance(e, Exception)]: every class above derives from
    [Exception]. *)
Definition is_Exception (e : exn) : bool := true.

Inductive outcome (A : Type) : Type :=
  | Return (a : A)
  | Raise (e : exn).
Arguments Return {A} a.
Arguments Raise {A} e.

(** [try: body except cls as e: handler(e)] *)
Definition try_except {A : Type} (body : outcome A) (cls : exn -> bool)
    (handler : exn -> outcome A) : outcome A :=
  match body with
  | Return a => Return a
  | Raise e => if cls e then handler e else Raise e
  end.

Definition HTTP_400_BAD_REQUEST : Z := 400.
Definition HTTP_401_UNAUTHORIZED : Z := 401.
Definition HTTP_429_TOO_MANY_REQUESTS : Z := 429.
Definition HTTP_500_INTERNAL_SERVER_ERROR : Z := 500.
Definition HTTP_503_SERVICE_UNAVAILABLE : Z := 503.

(** ** Configuration *)

(** [SECRET_KEY = os.environ.get("SECRET_KEY", "your-secret-key-for-jwt-encryption")] *)
Definition SECRET_KEY (environ : gmap string string) : string :=
  default "your-secret-key-for-jwt-encryption" (environ !! "SECRET_KEY").

Definition ALGORITHM : string := "HS256".
Definition ACCESS_TOKEN_EXPIRE_MINUTES : Z := 30.

(** [timedelta(minutes=m)], in seconds *)
Definition timedelta_minutes (m : Z) : Z := 60 * m.

(** ** Library interfaces *)

(** The claims dictionary of a token: the keys the module writes and
    reads are ["sub"] and ["exp"]. *)
Record Claims : Type := mkClaims {
  claim_sub : option string;
  claim_exp : option Z
}.

(** [to_encode.update({"exp": expire})] *)
Definition update_exp (data : Claims) (expire : Z) : Claims :=
  {| claim_sub := claim_sub data; claim_exp := Some expire |}.

(** [jose.jwt]: [jwt.encode(claims, key, algorithm)] and
    [jwt.decode(token, key, algorithms)]; decoding reads the clock. *)
Class Jose : Type := {
  jwt_encode : Claims -> string -> string -> string;
  jwt_decode : string -> string -> list string -> Z -> JoseError + Claims
}.

(** [passlib.context.CryptContext]: [verify] answers with a boolean or
    raises. *)
Class CryptContext : Type := {
  pwd_hash : string -> string;
  pwd_verify : string -> string -> PasslibError + bool
}.

(** ** Pydantic models *)

Record UserInDB : Type := mkUser {
  username : string;
  email : option string;
  full_name : option string;
  disabled : option bool;
  hashed_password : string
}.

(** The response model [User]: the record without its password hash. *)
Record User : Type := mkPublicUser {
  user_username : string;
  user_email : option string;
  user_full_name : option string;
  user_disabled : option bool
}.

(** Serialisation of a record through [response_model=User]. *)
Definition as_User (u : UserInDB) : User :=
  {| user_username := username u;
     user_email := email u;
     user_full_name := full_name u;
     user_disabled := disabled u |}.

(** Truth value of an [Optional[bool]] field: [None] is falsy. *)
Definition truthy (b : option bool) : bool :=
  match b with
  | Some true => true
  | _ => false
  end.

Record Token : Type := mkToken {
  access_token : string;
  token_type : string
}.

Record TokenData : Type := mkTokenData {
  td_username : option string
}.

(** ** Authentication helpers *)

Section Authentication.
Context (environ : gmap string string).
Context `{jose : Jose} `{pwd_context : CryptContext}.
(** The user table; the module's own table is [fake_users_db] below. *)
Context (users_db : gmap string UserInDB).

Definition verify_password (plain_password hashed_password : string)
    : outcome bool :=
  match pwd_verify plain_password hashed_password with
  | inl e => Raise (PasslibException e)
  | inr matches => Return matches
  end.

Definition get_user (name : string) : option UserInDB :=
  users_db !! name.

(** Returns [None] where the source returns [False]; an exception of
    [verify_password] is not caught. *)
Definition authenticate_user (name password : string)
    : outcome (option UserInDB) :=
  match get_user name with
  | None => Return None
  | Some user =>
      match verify_password password (hashed_password user) with
      | Raise e => Raise e
      | Return matches =>
          if negb matches then Return None else Return (Some user)
      end
  end.

Definition create_access_token (data : Claims) (now : Z) : string :=
  let to_encode := data in
  let expire := now + timedelta_minutes ACCESS_TOKEN_EXPIRE_MINUTES in
  let to_encode := update_exp to_encode expire in
  jwt_encode to_encode (SECRET_KEY environ) ALGORITHM.

Definition credentials_exception : exn :=
  HTTPException HTTP_401_UNAUTHORIZED "Could not validate credentials"
                [("WWW-Authenticate", "Bearer")].

Definition inactive_user_exception : exn :=
  HTTPException 400 "Inactive user" [].

(** The [try] block of [get_current_user]. *)
Definition decode_token_data (token : string) (now : Z) : outcome TokenData :=
  try_except
    (match jwt_decode token (SECRET_KEY environ) [ALGORITHM] now with
     | inl e => Raise (JoseException e)
     | inr payload =>
         match claim_sub payload with
         | None => Raise credentials_exception
         | Some name => Return {| td_username := Some name |}
         end
     end)
    is_JWTError
    (fun _ => Raise credentials_exception).

Definition get_current_user (token : string) (now : Z) : outcome UserInDB :=
  match decode_token_data token now with
  | Raise e => Raise e
  | Return token_data =>
      match td_username token_data ≫= get_user with
      | None => Raise credentials_exception
      | Some user =>
          if truthy (disabled user)
          then Raise inactive_user_exception
          else Return user
      end
  end.

(** [current_user = Depends(get_current_user)] is resolved first. *)
Definition get_current_active_user (token : string) (now : Z)
    : outcome UserInDB :=
  match get_current_user token now with
  | Raise e => Raise e
  | Return current_user =>
      if truthy (disabled current_user)
      then Raise inactive_user_exception
      else Return current_user
  end.

Definition incorrect_login_exception : exn :=
  HTTPException HTTP_401_UNAUTHORIZED "Incorrect username or password"
                [("WWW-Authenticate", "Bearer")].

(** [POST /token] *)
Definition login_for_access_token (form_username form_password : string)
    (now : Z) : outcome Token :=
  match authenticate_user form_username form_password with
  | Raise e => Raise e
  | Return None => Raise incorrect_login_exception
  | Return (Some user) =>
      let access_token :=
        create_access_token
          {| claim_sub := Some (username user); claim_exp := None |} now in
      Return {| access_token := access_token; token_type := "bearer" |}
  end.

End Authentication.

(** ** Rate limiter *)

Record RateWindow : Type := mkWindow {
  window_start : Z;
  count_in_window : Z
}.

(** The answer of the limiter; [Accepted] is the spec's admitted
    outcome. *)
Inductive admission : Type :=
  | Accepted
  | Rejected (RetryAfter : Z).

(** A parsed limit string: [amount] requests per [per_seconds]. *)
Record RateLimitItem : Type := mkLimit {
  amount : Z;
  per_seconds : Z
}.

(** The limit string ["5/minute"] of the inference endpoint. *)
Definition five_per_minute : RateLimitItem :=
  {| amount := 5; per_seconds := 60 |}.

(** Modelled from the spec: the admission algorithm of slowapi's
    [Limiter], which the module only configures and applies. Fixed
    window of duration [W] and limit [L]: when no window exists for the
    key, or [now >= window-start + W], a new window [{start: now,
    count: 0}] is started; when [count < L] the count is incremented
    and the call is admitted; otherwise it is rejected with
    [RetryAfter = window-start + W - now]. *)
Definition TryAdmit (W L : Z) (windows : gmap string RateWindow)
    (key : string) (now : Z) : admission * gmap string RateWindow :=
  let fresh := {| window_start := now; count_in_window := 0 |} in
  let w :=
    match windows !! key with
    | None => fresh
    | Some w => if window_start w + W <=? now then fresh else w
    end in
  if count_in_window w <? L
  then (Accepted,
        <[key := {| window_start := window_start w;
                    count_in_window := count_in_window w + 1 |}]> windows)
  else (Rejected (window_start w + W - now), <[key := w]> windows).

(** Successive calls for one key, at the given times. *)
Fixpoint TryAdmit_all (W L : Z) (windows : gmap string RateWindow)
    (key : string) (times : list Z)
    : list admission * gmap string RateWindow :=
  match times with
  | [] => ([], windows)
  | now :: times' =>
      let '(a, windows') := TryAdmit W L windows key now in
      let '(rest, windows'') := TryAdmit_all W L windows' key times' in
      (a :: rest, windows'')
  end.

(** ** The inference endpoint *)

Section Inference.
(** Tensor elements; the arithmetic of the model is not modelled. *)
Context {float : Type}.

Record InferenceRequest : Type := mkRequest {
  input_data : list float;
  model_version : option string
}.

Record InferenceResponse : Type := mkResponse {
  prediction : list float;
  response_model_version : option string
}.

(** The loaded network as the endpoint uses it: the payload is turned
    into a float32 tensor, the model is applied and the output is read
    back with [tolist()]. *)
Record DummyModel : Type := mkModel {
  forward : list float -> outcome (list float)
}.

(** What the transport hands to the application for one call: the
    peer address, the bearer token extracted by [oauth2_scheme] and
    the parsed body. *)
Record HttpRequest : Type := mkHttp {
  client_host : string;
  bearer_token : string;
  json_body : InferenceRequest
}.

(** The value bound to the endpoint parameter named [request], the one
    slowapi's decorator picks up: the transport's request object, or, as
    in [run_inference], the parsed body declared under that name. *)
Inductive request_argument : Type :=
  | StarletteRequest (request : HttpRequest)
  | BodyModel (body : InferenceRequest).

(** [slowapi.util.get_remote_address] *)
Definition get_remote_address (request : HttpRequest) : string :=
  client_host request.

Record Limiter : Type := mkLimiter {
  key_func : HttpRequest -> string
}.

(** [limiter = Limiter(key_func=get_remote_address)] *)
Definition limiter : Limiter := {| key_func := get_remote_address |}.

(** Calls into the collaborators, in the order they are made. *)
Inductive event : Type :=
  | Validate (token : string)
  | Admit (key : string)
  | Dispatch (input : list float).

(** Process state: the limiter's storage and the call log. *)
Record world : Type := mkWorld {
  limiter_storage : gmap string RateWindow;
  trace : list event
}.

Definition log (e : event) (w : world) : world :=
  {| limiter_storage := limiter_storage w; trace := trace w ++ [e] |}.

Definition set_storage (s : gmap string RateWindow) (w : world) : world :=
  {| limiter_storage := s; trace := trace w |}.

(** Computations that may raise and that update the process state. *)
Definition M (A : Type) : Type := world -> outcome A * world.

Definition ret {A} (a : A) : M A := fun w => (Return a, w).
Definition raise {A} (e : exn) : M A := fun w => (Raise e, w).
Definition bind {A B} (m : M A) (k : A -> M B) : M B :=
  fun w =>
    match m w with
    | (Return a, w') => k a w'
    | (Raise e, w') => (Raise e, w')
    end.
Definition try_exceptM {A} (body : M A) (cls : exn -> bool)
    (handler : exn -> M A) : M A :=
  fun w =>
    match body w with
    | (Return a, w') => (Return a, w')
    | (Raise e, w') => if cls e then handler e w' else (Raise e, w')
    end.

End Inference.

Arguments InferenceRequest : clear implicits.
Arguments InferenceResponse : clear implicits.
Arguments DummyModel : clear implicits.
Arguments HttpRequest : clear implicits.
Arguments request_argument : clear implicits.
Arguments Limiter : clear implicits.
Arguments event : clear implicits.
Arguments world : clear implicits.
Arguments M : clear implicits.

#[global] Instance M_ret {float} : MRet (M float) := @ret float.
#[global] Instance M_bind {float} : MBind (M float) :=
  fun A B k m => bind m k.

Section Endpoint.
Context (environ : gmap string string).
Context `{jose : Jose} `{pwd_context : CryptContext}.
Context (users_db : gmap string UserInDB).
Context {float : Type}.
(** The module-level [model]: [None] when loading failed. *)
Context (model : option (DummyModel float)).

(** [str(e)] for the exceptions that can reach the handler. *)
Definition exn_str (e : exn) : string :=
  match e with
  | HTTPException status_code detail _ =>
      pretty status_code +:+ ": " +:+ detail
  | RuntimeError msg => msg
  | PyException msg => msg
  | JoseException _ => ""
  | PasslibException _ => ""
  | RateLimitExceeded _ => ""
  end.

(** [model(input_tensor)]: the call to the backend is logged. *)
Definition call_model (m : DummyModel float) (input_tensor : list float)
    : M float (list float) :=
  fun w => (forward m input_tensor, log (Dispatch input_tensor) w).

(** The body of [run_inference]. *)
Definition run_inference (request : InferenceRequest float)
    (current_user : UserInDB) : M float (InferenceResponse float) :=
  try_exceptM
    (match model with
     | None =>
         raise (HTTPException HTTP_503_SERVICE_UNAVAILABLE
                              "AI model not loaded" [])
     | Some m =>
         let input_tensor := input_data request in
         if negb (Z.of_nat (length input_tensor) =? 10)
         then raise (HTTPException HTTP_400_BAD_REQUEST
                                   "Input data must have 10 elements" [])
         else
           output ← call_model m input_tensor;
           mret {| prediction := output;
                   response_model_version := model_version request |}
     end)
    is_Exception
    (fun e =>
       raise (HTTPException HTTP_500_INTERNAL_SERVER_ERROR
                            ("Inference failed: " +:+ exn_str e) [])).

(** The message of the exception slowapi's wrapper raises when the
    argument named [request] is not the transport's request object. *)
Definition not_a_request : string :=
  "parameter `request` must be an instance of starlette.requests.Request".

(** [@limiter.limit(item)]: the wrapper first takes the argument named
    [request] and raises unless it is the transport's request object;
    then the check runs, on the key the limiter's [key_func] gives,
    before the wrapped function. *)
Definition limit {A} (lim : Limiter float) (item : RateLimitItem)
    (func : M float A) (request : request_argument float) (now : Z)
    : M float A :=
  fun w =>
    match request with
    | BodyModel _ => (Raise (PyException not_a_request), w)
    | StarletteRequest request =>
        let key := key_func lim request in
        let w := log (Admit key) w in
        match TryAdmit (per_seconds item) (amount item)
                       (limiter_storage w) key now with
        | (Accepted, s) => func (set_storage s w)
        | (Rejected retry_after, s) =>
            (Raise (RateLimitExceeded retry_after), set_storage s w)
        end
    end.

(** [Depends(get_current_active_user)]: resolved from the bearer
    token before the endpoint function is entered. *)
Definition Depends_current_active_user (request : HttpRequest float)
    (now : Z) : M float UserInDB :=
  fun w =>
    (get_current_active_user environ users_db (bearer_token request) now,
     log (Validate (bearer_token request)) w).

(** [POST /inference]: the endpoint declares the parsed body under the
    name [request], and that is what the decorator receives. *)
Definition post_inference (request : HttpRequest float) (now : Z)
    : M float (InferenceResponse float) :=
  current_user ← Depends_current_active_user request now;
  limit limiter five_per_minute
        (run_inference (json_body request) current_user)
        (BodyModel (json_body request)) now.

(** [GET /users/me], declared with [response_model=User]. *)
Definition read_users_me (request : HttpRequest float) (now : Z)
    : M float User :=
  current_user ← Depends_current_active_user request now;
  mret (as_User current_user).

(** A run of the server: the calls are handled one after the other
    on the shared process state. *)
Fixpoint serve (calls : list (HttpRequest float * Z)) (w : world float)
    : list (outcome (InferenceResponse float)) * world float :=
  match calls with
  | [] => ([], w)
  | (request, now) :: calls' =>
      let '(o, w') := post_inference request now w in
      let '(rest, w'') := serve calls' w' in
      (o :: rest, w'')
  end.

(** Status of the response the application sends: an
    [HTTPException] carries its own, [RateLimitExceeded] goes to
    [_rate_limit_exceeded_handler], anything else to
    [unhandled_exception_handler]. *)
Definition response_status {A} (o : outcome A) : Z :=
  match o with
  | Return _ => 200
  | Raise (HTTPException status_code _ _) => status_code
  | Raise (RateLimitExceeded _) => HTTP_429_TOO_MANY_REQUESTS
  | Raise _ => 500
  end.

End Endpoint.

(** ** The module's user table *)

(** [fake_users_db], hashed with the given password context. *)
Definition fake_users_db `{pwd_context : CryptContext}
    : gmap string UserInDB :=
  {[ "testuser" :=
       {| username := "testuser";
          full_name := Some "Test User";
          email := Some "testuser@example.com";
          hashed_password := pwd_hash "testpassword";
          disabled := Some false |} ]}.

(** ** Contract of the token library *)

(** Modelled from the spec: the behaviour of jose's [jwt.encode] and
    [jwt.decode], which the module calls but does not contain. A token
    encoded under a key decodes under the same key and algorithm to the
    claims it embeds, unless the current time has reached the embedded
    expiry ([now >= exp]), in which case decoding fails as expired. *)
Class JoseSpec (jose : Jose) : Prop := {
  jwt_decode_encode :
    forall (claims : Claims) (key alg : string) (now expire : Z),
      claim_exp claims = Some expire ->
      jwt_decode (jwt_encode claims key alg) key [alg] now =
        if expire <=? now then inl ExpiredSignatureError else inr claims
}.

(** ** Reference instances of the library interfaces

    Small executable stand-ins for jose, passlib and the model, used to
    run the gateway on concrete calls. *)

Module Reference.

Fixpoint strip_prefix (p s : string) : option string :=
  match p with
  | EmptyString => Some s
  | String a p' =>
      match s with
      | EmptyString => None
      | String b s' => if Ascii.eqb a b then strip_prefix p' s' else None
      end
  end.

(** Binary digits of a positive number, least significant first,
    closed by a dot. *)
Fixpoint enc_pos (p : positive) (rest : string) : string :=
  match p with
  | xH => String "."%char rest
  | xO q => String "0"%char (enc_pos q rest)
  | xI q => String "1"%char (enc_pos q rest)
  end.

Fixpoint dec_pos (s : string) : option (positive * string) :=
  match s with
  | EmptyString => None
  | String c s' =>
      if Ascii.eqb c "."%char then Some (xH, s')
      else if Ascii.eqb c "0"%char
      then (fun '(q, r) => (xO q, r)) <$> dec_pos s'
      else if Ascii.eqb c "1"%char
      then (fun '(q, r) => (xI q, r)) <$> dec_pos s'
      else None
  end.

Definition enc_exp (e : option Z) (rest : string) : string :=
  match e with
  | None => String "n"%char rest
  | Some Z0 => String "z"%char rest
  | Some (Zpos p) => String "p"%char (enc_pos p rest)
  | Some (Zneg p) => String "m"%char (enc_pos p rest)
  end.

Definition dec_exp (s : string) : option (option Z * string) :=
  match s with
  | EmptyString => None
  | String c s' =>
      if Ascii.eqb c "n"%char then Some (None, s')
      else if Ascii.eqb c "z"%char then Some (Some 0, s')
      else if Ascii.eqb c "p"%char
      then (fun '(q, r) => (Some (Zpos q), r)) <$> dec_pos s'
      else if Ascii.eqb c "m"%char
      then (fun '(q, r) => (Some (Zneg q), r)) <$> dec_pos s'
      else None
  end.

Definition enc_sub (s : option string) : string :=
  match s with
  | None => "-"
  | Some name => String "s"%char name
  end.

Definition dec_sub (s : string) : option (option string) :=
  match s with
  | EmptyString => None
  | String c s' =>
      if Ascii.eqb c "s"%char then Some (Some s')
      else if Ascii.eqb c "-"%char
      then match s' with EmptyString => Some None | _ => None end
      else None
  end.

(** A token is the key, a dot, the expiry and the subject. *)
Definition encode (claims : Claims) (key alg : string) : string :=
  key +:+ String "."%char
    (enc_exp (claim_exp claims) (enc_sub (claim_sub claims))).

Definition decode (token key : string) (algs : list string) (now : Z)
    : JoseError + Claims :=
  match strip_prefix key token with
  | Some (String c body) =>
      if Ascii.eqb c "."%char then
        match dec_exp body with
        | Some (e, rest) =>
            match dec_sub rest with
            | Some s =>
                let claims := {| claim_sub := s; claim_exp := e |} in
                match e with
                | Some expire =>
                    if expire <=? now then inl ExpiredSignatureError
                    else inr claims
                | None => inr claims
                end
            | None => inl JWTError
            end
        | None => inl JWTError
        end
      else inl JWTError
  | _ => inl JWTError
  end.

Definition jose : Jose := {| jwt_encode := encode; jwt_decode := decode |}.

Fixpoint has_nul (s : string) : bool :=
  match s with
  | EmptyString => false
  | String c s' => Ascii.eqb c Ascii.zero || has_nul s'
  end.

(** Refuses a password with a NUL byte, as the bcrypt scheme does. *)
Definition pwd_context : CryptContext :=
  {| pwd_hash := fun p => "$ref$" +:+ p;
     pwd_verify := fun p h =>
       if has_nul p then inl PasswordValueError
       else inr (String.eqb h ("$ref$" +:+ p)) |}.

(** A one-output network over integers: the sum of its inputs. *)
Definition model : DummyModel Z :=
  {| forward := fun x => Return [foldr Z.add 0 x] |}.

Definition environ : gmap string string := ∅.

Definition alice : UserInDB :=
  {| username := "alice"; email := None; full_name := None;
     disabled := Some false; hashed_password := "$ref$wonderland" |}.

(** A table with two enabled users and a disabled one. *)
Definition users_db : gmap string UserInDB :=
  {[ "alice" := alice;
     "bob" := {| username := "bob"; email := None; full_name := None;
                 disabled := Some true;
                 hashed_password := "$ref$builder" |};
     "carol" := {| username := "carol"; email := None; full_name := None;
                   disabled := None;
                   hashed_password := "$ref$singer" |} ]}.

(** The token [create_access_token] issues for a subject. *)
Definition issue (name : string) (now : Z) : string :=
  @create_access_token environ jose
    {| claim_sub := Some name; claim_exp := None |} now.

Definition call (host token : string) (data : list Z) : HttpRequest Z :=
  {| client_host := host; bearer_token := token;
     json_body := {| input_data := data; model_version := Some "v1" |} |}.

Definition ten : list Z := [1; 2; 3; 4; 5; 6; 7; 8; 9; 10].

Definition empty_world : world Z :=
  {| limiter_storage := ∅; trace := [] |}.

End Reference.

(** ** HMAC-SHA256 *)

Module Sha256.

Definition w32 (x : Z) : Z := Z.land x 4294967295.
Definition add32 (x y : Z) : Z := w32 (x + y).
Definition rotr (n x : Z) : Z :=
  w32 (Z.lor (Z.shiftr x n) (Z.shiftl x (32 - n))).
Definition not32 (x : Z) : Z := Z.lxor x 4294967295.

Definition Ch (x y z : Z) : Z := Z.lxor (Z.land x y) (Z.land (not32 x) z).
Definition Maj (x y z : Z) : Z :=
  Z.lxor (Z.lxor (Z.land x y) (Z.land x z)) (Z.land y z).
Definition Sigma0 (x : Z) : Z :=
  Z.lxor (Z.lxor (rotr 2 x) (rotr 13 x)) (rotr 22 x).
Definition Sigma1 (x : Z) : Z :=
  Z.lxor (Z.lxor (rotr 6 x) (rotr 11 x)) (rotr 25 x).
Definition sigma0 (x : Z) : Z :=
  Z.lxor (Z.lxor (rotr 7 x) (rotr 18 x)) (Z.shiftr x 3).
Definition sigma1 (x : Z) : Z :=
  Z.lxor (Z.lxor (rotr 17 x) (rotr 19 x)) (Z.shiftr x 10).

(** The first sixty-four primes. *)
Definition primes : list Z :=
  [ 2; 3; 5; 7; 11; 13; 17; 19; 23; 29; 31; 37; 41; 43; 47; 53; 59; 61; 67;
    71; 73; 79; 83; 89; 97; 101; 103; 107; 109; 113; 127; 131; 137; 139; 149;
    151; 157; 163; 167; 173; 179; 181; 191; 193; 197; 199; 211; 223; 227;
    229; 233; 239; 241; 251; 257; 263; 269; 271; 277; 281; 283; 293; 307;
    311 ].

(** Integer cube root, one bit at a time from bit [n - 1] down. *)
Fixpoint icbrt (n : nat) (x r : Z) : Z :=
  match n with
  | O => r
  | S n' =>
      let c := r + 2 ^ Z.of_nat n' in
      icbrt n' x (if c * c * c <=? x then c else r)
  end.

(** The first 32 bits of the fractional part of a cube root and of a
    square root. *)
Definition frac_cbrt (p : Z) : Z := w32 (icbrt 36 (p * 2 ^ 96) 0).
Definition frac_sqrt (p : Z) : Z := w32 (Z.sqrt (p * 2 ^ 64)).

(** Round constants: from the cube roots of the first 64 primes. *)
Definition K : list Z := Eval vm_compute in map frac_cbrt primes.

(** Initial hash value: from the square roots of the first 8 primes. *)
Definition H0 : list Z := Eval vm_compute in map frac_sqrt (take 8 primes).

(** Big-endian bytes of a word of [n] bytes. *)
Fixpoint be_bytes (n : nat) (x : Z) : list Z :=
  match n with
  | O => []
  | S n' => Z.land (Z.shiftr x (8 * Z.of_nat n')) 255 :: be_bytes n' x
  end.

Definition be_word (bs : list Z) : Z :=
  fold_left (fun acc b => Z.lor (Z.shiftl acc 8) b) bs 0.

(** The message followed by 0x80, zeros up to 56 modulo 64 and the bit
    length on eight bytes. *)
Definition pad (msg : list Z) : list Z :=
  let len := Z.of_nat (length msg) in
  let zeros := Z.to_nat ((55 - len) mod 64) in
  (msg ++ 128 :: repeat 0 zeros ++ be_bytes 8 (8 * len))%list.

Fixpoint words (n : nat) (bs : list Z) : list Z :=
  match n with
  | O => []
  | S n' => be_word (take 4 bs) :: words n' (drop 4 bs)
  end.

(** The message schedule, most recent word first. *)
Fixpoint schedule (n : nat) (rev_w : list Z) : list Z :=
  match n with
  | O => rev_w
  | S n' =>
      let w :=
        add32 (add32 (sigma1 (nth 1 rev_w 0)) (nth 6 rev_w 0))
              (add32 (sigma0 (nth 14 rev_w 0)) (nth 15 rev_w 0)) in
      schedule n' (w :: rev_w)
  end.

Definition round (st : list Z) (kw : Z * Z) : list Z :=
  match st with
  | [a; b; c; d; e; f; g; h] =>
      let t1 :=
        add32 (add32 (add32 h (Sigma1 e)) (add32 (Ch e f g) kw.1)) kw.2 in
      let t2 := add32 (Sigma0 a) (Maj a b c) in
      [add32 t1 t2; a; b; c; add32 d t1; e; f; g]
  | _ => st
  end.

Definition compress (h : list Z) (block : list Z) : list Z :=
  let w := rev (schedule 48 (rev (words 16 block))) in
  let st := fold_left round (combine K w) h in
  zip_with add32 h st.

Fixpoint blocks (n : nat) (h : list Z) (bs : list Z) : list Z :=
  match n with
  | O => h
  | S n' => blocks n' (compress h (take 64 bs)) (drop 64 bs)
  end.

Definition sha256 (msg : list Z) : list Z :=
  let padded := pad msg in
  let h := blocks (length padded / 64) H0 padded in
  flat_map (be_bytes 4) h.

Definition hmac (key msg : list Z) : list Z :=
  let key := if 64 <? Z.of_nat (length key) then sha256 key else key in
  let key := (key ++ repeat 0 (64 - length key)%nat)%list in
  sha256 (map (Z.lxor 92) key ++ sha256 (map (Z.lxor 54) key ++ msg))%list.

Definition bytes_of (s : string) : list Z :=
  map (fun c => Z.of_N (N_of_ascii c)) (list_ascii_of_string s).

Definition string_of (bs : list Z) : string :=
  string_of_list_ascii (map (fun b => ascii_of_N (Z.to_N b)) bs).

End Sha256.


(** ** Compact JWS tokens, as python-jose reads and writes them *)

Module Jws.

(** Value of a character in the base64 alphabet, after the translation
    of the URL-safe characters: both [-] and [+] stand for 62, both [_]
    and [/] for 63. *)
Definition b64_value (c : ascii) : option Z :=
  let n := Z.of_N (N_of_ascii c) in
  if (65 <=? n) && (n <=? 90) then Some (n - 65)
  else if (97 <=? n) && (n <=? 122) then Some (n - 71)
  else if (48 <=? n) && (n <=? 57) then Some (n + 4)
  else if (n =? 45) || (n =? 43) then Some 62
  else if (n =? 95) || (n =? 47) then Some 63
  else None.

(** [binascii.a2b_base64] in its default, lenient mode: characters
    outside the alphabet are skipped, a pad sequence that completes the
    quad ends the input, and the bits left over in an incomplete quad
    are dropped. [quad] is the position in the current quad, [left]
    the bits not yet written, [out] the bytes written, last first. *)
Fixpoint a2b_base64 (s : string) (quad : nat) (left : Z) (pads : nat)
    (out : list Z) : option (list Z) :=
  match s with
  | EmptyString => if Nat.eqb quad 0 then Some (rev out) else None
  | String c s' =>
      if Ascii.eqb c "="%char then
        if Nat.leb 2 quad then
          if Nat.leb 4 (quad + S pads) then Some (rev out)
          else a2b_base64 s' quad left (S pads) out
        else a2b_base64 s' quad left pads out
      else
        match b64_value c with
        | None => a2b_base64 s' quad left pads out
        | Some v =>
            match quad with
            | 0%nat => a2b_base64 s' 1 v 0 out
            | 1%nat =>
                a2b_base64 s' 2 (Z.land v 15) 0
                  (Z.lor (Z.shiftl left 2) (Z.shiftr v 4) :: out)
            | 2%nat =>
                a2b_base64 s' 3 (Z.land v 3) 0
                  (Z.lor (Z.shiftl left 4) (Z.shiftr v 2) :: out)
            | _ =>
                a2b_base64 s' 0 0 0 (Z.lor (Z.shiftl left 6) v :: out)
            end
        end
  end.

(** [jose.utils.base64url_decode]: the input is padded with [=] to a
    multiple of four characters and decoded. *)
Definition base64url_decode (input : string) : option string :=
  let rem := (String.length input mod 4)%nat in
  let input :=
    if Nat.ltb 0 rem
    then input +:+ string_of_list_ascii (repeat "="%char (4 - rem))
    else input in
  Sha256.string_of <$> a2b_base64 input 0 0 0 [].

Definition b64_char (v : Z) : ascii :=
  ascii_of_N (Z.to_N
    (if v <? 26 then v + 65
     else if v <? 52 then v + 71
     else if v <? 62 then v - 4
     else if v =? 62 then 45 else 95)).

Fixpoint b2a (n : nat) (bs : list Z) : list ascii :=
  match n with
  | O => []
  | S n' =>
      match bs with
      | [] => []
      | [a] => [b64_char (Z.shiftr a 2); b64_char (Z.shiftl (Z.land a 3) 4)]
      | [a; b] =>
          [b64_char (Z.shiftr a 2);
           b64_char (Z.lor (Z.shiftl (Z.land a 3) 4) (Z.shiftr b 4));
           b64_char (Z.shiftl (Z.land b 15) 2)]
      | a :: b :: c :: bs' =>
          b64_char (Z.shiftr a 2)
          :: b64_char (Z.lor (Z.shiftl (Z.land a 3) 4) (Z.shiftr b 4))
          :: b64_char (Z.lor (Z.shiftl (Z.land b 15) 2) (Z.shiftr c 6))
          :: b64_char (Z.land c 63) :: b2a n' bs'
      end
  end.

(** [jose.utils.base64url_encode]: URL-safe alphabet, padding removed. *)
Definition base64url_encode (input : string) : string :=
  let bs := Sha256.bytes_of input in
  string_of_list_ascii (b2a (S (length bs)) bs).

Definition is_dot (c : ascii) : bool := Ascii.eqb c "."%char.

Fixpoint has_dot (s : string) : bool :=
  match s with
  | EmptyString => false
  | String c s' => is_dot c || has_dot s'
  end.

(** [s.split(".", 1)]: the parts before and after the first dot. *)
Fixpoint split_dot (s : string) : option (string * string) :=
  match s with
  | EmptyString => None
  | String c s' =>
      if is_dot c then Some (EmptyString, s')
      else (fun '(a, b) => (String c a, b)) <$> split_dot s'
  end.

(** [s.rsplit(".", 1)]: the parts before and after the last dot. *)
Fixpoint rsplit_dot (s : string) : option (string * string) :=
  match s with
  | EmptyString => None
  | String c s' =>
      match rsplit_dot s' with
      | Some (a, b) => Some (String c a, b)
      | None => if is_dot c then Some (EmptyString, s') else None
      end
  end.

Section Verify.
(** The keyed digest, the test of the decoded header against the
    accepted algorithms, and the reading and validation of the decoded
    claims at the current time. *)
Context (mac : string -> string -> string).
Context (header_allows : string -> list string -> bool).
Context (loads_claims : string -> Z -> JoseError + Claims).

(** [jwt.decode]: the token is cut at its last dot into signing input
    and signature segment and the signing input at its first dot into
    header and claims segments; the three segments are decoded; the
    header must allow the algorithm and the decoded signature must be
    the digest of the signing input; every failure so far is a
    [JWTError]. Then the claims are read. *)
Definition decode (token key : string) (algorithms : list string) (now : Z)
    : JoseError + Claims :=
  match rsplit_dot token with
  | None => inl JWTError
  | Some (signing_input, crypto_segment) =>
      match split_dot signing_input with
      | None => inl JWTError
      | Some (header_segment, claims_segment) =>
          match base64url_decode header_segment,
                base64url_decode claims_segment,
                base64url_decode crypto_segment with
          | Some header, Some payload, Some signature =>
              if header_allows header algorithms
                 && String.eqb signature (mac key signing_input)
              then loads_claims payload now
              else inl JWTError
          | _, _, _ => inl JWTError
          end
      end
  end.

End Verify.

(** HMAC-SHA256 on byte strings. *)
Definition hmac_sha256 (key msg : string) : string :=
  Sha256.string_of (Sha256.hmac (Sha256.bytes_of key) (Sha256.bytes_of msg)).

(** The double quote, and a JSON string without escapes. *)
Definition dquote : ascii := "034"%char.
Definition quoted (s : string) : string :=
  String dquote s +:+ String dquote EmptyString.

(** The header jose writes for an algorithm (keys sorted). *)
Definition dumps_header (alg : string) : string :=
  "{" +:+ quoted "alg" +:+ ":" +:+ quoted alg +:+ "," +:+
  quoted "typ" +:+ ":" +:+ quoted "JWT" +:+ "}".

(** Accepts the header in the form jose writes it, for an algorithm of
    the accepted list; a header in any other form is refused here. *)
Definition header_allows (header : string) (algorithms : list string)
    : bool :=
  existsb (fun alg => String.eqb header (dumps_header alg)) algorithms.

(** The claims as [json.dumps] writes them with compact separators, in
    insertion order; right for subjects without quotes, backslashes,
    control characters and non-ASCII characters. *)
Definition dumps_claims (claims : Claims) : string :=
  match claim_sub claims, claim_exp claims with
  | Some name, Some expire =>
      "{" +:+ quoted "sub" +:+ ":" +:+ quoted name +:+ "," +:+
      quoted "exp" +:+ ":" +:+ pretty expire +:+ "}"
  | Some name, None => "{" +:+ quoted "sub" +:+ ":" +:+ quoted name +:+ "}"
  | None, Some expire =>
      "{" +:+ quoted "exp" +:+ ":" +:+ pretty expire +:+ "}"
  | None, None => "{}"
  end.

Definition is_digit (c : ascii) : bool :=
  let n := Z.of_N (N_of_ascii c) in (48 <=? n) && (n <=? 57).

(** A subject up to its closing quote; escapes are not read. *)
Fixpoint read_name (s : string) : option (string * string) :=
  match s with
  | EmptyString => None
  | String c s' =>
      if Ascii.eqb c dquote then Some (EmptyString, s')
      else if Ascii.eqb c "\"%char then None
      else (fun '(name, rest) => (String c name, rest)) <$> read_name s'
  end.

Fixpoint read_digits (s : string) (acc : Z) : Z * string :=
  match s with
  | EmptyString => (acc, EmptyString)
  | String c s' =>
      if is_digit c
      then read_digits s' (10 * acc + (Z.of_N (N_of_ascii c) - 48))
      else (acc, s)
  end.

(** A non-negative JSON integer: digits, no leading zero. *)
Definition read_number (s : string) : option (Z * string) :=
  match s with
  | String c (String d _) =>
      if is_digit c && negb (Ascii.eqb c "0"%char && is_digit d)
      then Some (read_digits s 0) else None
  | String c EmptyString =>
      if is_digit c then Some (read_digits s 0) else None
  | EmptyString => None
  end.

(** Reads claims of the form the module's tokens carry, a subject
    followed by an expiry, and applies jose's expiry test (rejected
    when [exp < now]); a payload of any other form is refused here. *)
Definition loads_claims (payload : string) (now : Z) : JoseError + Claims :=
  match Reference.strip_prefix
          ("{" +:+ quoted "sub" +:+ ":" +:+ String dquote EmptyString)
          payload with
  | None => inl JWTError
  | Some rest =>
      match read_name rest with
      | None => inl JWTError
      | Some (name, rest) =>
          match Reference.strip_prefix ("," +:+ quoted "exp" +:+ ":") rest
          with
          | None => inl JWTError
          | Some rest =>
              match read_number rest with
              | Some (expire, "}") =>
                  if expire <? now then inl ExpiredSignatureError
                  else inr {| claim_sub := Some name;
                              claim_exp := Some expire |}
              | _ => inl JWTError
              end
          end
      end
  end.

(** [jwt.encode] with an HMAC-SHA256 signature. *)
Definition encode (claims : Claims) (key alg : string) : string :=
  let signing_input :=
    base64url_encode (dumps_header alg) +:+ "." +:+
    base64url_encode (dumps_claims claims) in
  signing_input +:+ "." +:+ base64url_encode (hmac_sha256 key signing_input).

(** A token library from a digest, a header test and a claims reader. *)
Definition jose_of (mac : string -> string -> string)
    (allows : string -> list string -> bool)
    (loads : string -> Z -> JoseError + Claims)
    (enc : Claims -> string -> string -> string) : Jose :=
  {| jwt_encode := enc; jwt_decode := decode mac allows loads |}.

Definition jose : Jose := jose_of hmac_sha256 header_allows loads_claims encode.

(** The two characters differ in exactly one bit. *)
Definition one_bit (a b : ascii) : bool :=
  let x := N.lxor (N_of_ascii a) (N_of_ascii b) in
  existsb (N.eqb x) [1; 2; 4; 8; 16; 32; 64; 128]%N.

(** The two strings differ in exactly one bit of one character. *)
Fixpoint single_bit_flip (s t : string) : bool :=
  match s, t with
  | String a s', String b t' =>
      if Ascii.eqb a b then single_bit_flip s' t'
      else one_bit a b && String.eqb s' t'
  | _, _ => false
  end.

End Jws.


(** * Properties *)

(** ** The reference token codec meets the library contract *)

Lemma strip_prefix_app (p s : string) :
  Reference.strip_prefix p (p +:+ s) = Some s.
Proof.
  induction p as [|a p IH]; simpl; [reflexivity|].
  rewrite Ascii.eqb_refl. exact IH.
Qed.

Lemma dec_enc_pos (p : positive) (rest : string) :
  Reference.dec_pos (Reference.enc_pos p rest) = Some (p, rest).
Proof.
  induction p as [q IH|q IH|]; simpl; try rewrite IH; reflexivity.
Qed.

Lemma dec_enc_exp (e : option Z) (rest : string) :
  Reference.dec_exp (Reference.enc_exp e rest) = Some (e, rest).
Proof.
  destruct e as [[|p|p]|]; simpl; try rewrite dec_enc_pos; reflexivity.
Qed.

Lemma dec_enc_sub (s : option string) :
  Reference.dec_sub (Reference.enc_sub s) = Some s.
Proof. destruct s; reflexivity. Qed.

Lemma reference_jose_spec : JoseSpec Reference.jose.
Proof.
  constructor. intros [s e] key alg now expire He. simpl in He. subst e.
  cbn [jwt_decode jwt_encode Reference.jose].
  unfold Reference.decode, Reference.encode.
  rewrite strip_prefix_app. cbn [claim_exp claim_sub].
  rewrite Ascii.eqb_refl, dec_enc_exp, dec_enc_sub. reflexivity.
Qed.

(** ** Login *)

(** The three ways through a login for a stored record, by the answer
    of the hash verification. *)
Lemma login_stored (environ : gmap string string)
    `{jose : Jose} `{pwd_context : CryptContext}
    (users_db : gmap string UserInDB) (name password : string) (now : Z)
    (user : UserInDB) :
  users_db !! name = Some user ->
  login_for_access_token environ users_db name password now =
    match pwd_verify password (hashed_password user) with
    | inl e => Raise (PasslibException e)
    | inr false => Raise incorrect_login_exception
    | inr true =>
        Return {| access_token :=
                    create_access_token environ
                      {| claim_sub := Some (username user);
                         claim_exp := None |} now;
                  token_type := "bearer" |}
    end.
Proof.
  intros Hu. unfold login_for_access_token, authenticate_user, get_user,
    verify_password. rewrite Hu.
  destruct (pwd_verify password (hashed_password user)) as [e|[|]];
    reflexivity.
Qed.

(** A matching secret opens a session whatever the record's [disabled]
    flag says: [authenticate_user] never reads the flag. *)
Lemma login_ignores_disabled (environ : gmap string string)
    `{jose : Jose} `{pwd_context : CryptContext}
    (users_db : gmap string UserInDB) (name password : string) (now : Z)
    (user : UserInDB) :
  users_db !! name = Some user ->
  pwd_verify password (hashed_password user) = inr true ->
  login_for_access_token environ users_db name password now =
    Return {| access_token :=
                create_access_token environ
                  {| claim_sub := Some (username user); claim_exp := None |}
                  now;
              token_type := "bearer" |}.
Proof.
  intros Hu Hv.
  rewrite (login_stored environ users_db name password now user Hu), Hv.
  reflexivity.
Qed.

(** X18: an exception of the hash verification is not caught anywhere
    in the login: for a stored identity it leaves the endpoint as it
    is, and the application answers it with status 500, not with the
    401 of a wrong password. *)
Theorem login_verify_raises (environ : gmap string string)
    `{jose : Jose} `{pwd_context : CryptContext}
    (users_db : gmap string UserInDB) (name password : string) (now : Z)
    (user : UserInDB) (e : PasslibError) :
  users_db !! name = Some user ->
  pwd_verify password (hashed_password user) = inl e ->
  login_for_access_token environ users_db name password now =
    Raise (PasslibException e) /\
  response_status (login_for_access_token environ users_db name password now)
    = 500.
Proof.
  intros Hu Hv.
  rewrite (login_stored environ users_db name password now user Hu), Hv.
  split; reflexivity.
Qed.

(** C2, as stated, fails: the record of bob is disabled, the secret
    matches, and the login returns a token instead of the
    invalid-credentials error. *)
Lemma login_disabled_counterexample :
  (disabled <$> Reference.users_db !! "bob") = Some (Some true) /\
  @login_for_access_token Reference.environ Reference.jose
      Reference.pwd_context Reference.users_db "bob" "builder" 1000 =
    Return {| access_token := Reference.issue "bob" 1000;
              token_type := "bearer" |} /\
  @login_for_access_token Reference.environ Reference.jose
      Reference.pwd_context Reference.users_db "bob" "builder" 1000 <>
    Raise incorrect_login_exception.
Proof. split; [|split]; [vm_compute; reflexivity .. | discriminate]. Qed.

(** C2 (amended): a login fails with the invalid-credentials error
    (401, "Incorrect username or password") exactly when the identity
    is absent from the store or the hash verification answers false
    for the stored hash; the error is the same value in both cases, and
    the record's [disabled] flag plays no part. An exception raised by
    the verification itself is therefore not this error. *)
Theorem login_invalid_credentials (environ : gmap string string)
    `{jose : Jose} `{pwd_context : CryptContext}
    (users_db : gmap string UserInDB) (name password : string) (now : Z) :
  users_db !! name = None \/
  (exists user, users_db !! name = Some user /\
                pwd_verify password (hashed_password user) = inr false) <->
  login_for_access_token environ users_db name password now =
    Raise incorrect_login_exception.
Proof.
  destruct (users_db !! name) as [user|] eqn:Hu.
  - rewrite (login_stored environ users_db name password now user Hu).
    split.
    + intros [H | (user' & H & Hv)]; [discriminate|].
      injection H as <-. rewrite Hv. reflexivity.
    + destruct (pwd_verify password (hashed_password user)) as [e|[|]]
        eqn:Hv; intros H; try discriminate.
      right. exists user. split; [reflexivity | exact Hv].
  - split; [|auto]. intros _.
    unfold login_for_access_token, authenticate_user, get_user.
    rewrite Hu. reflexivity.
Qed.

Lemma login_invalid_credentials_witness :
  @login_for_access_token Reference.environ Reference.jose
      Reference.pwd_context Reference.users_db "mallory" "guess" 1000 =
    Raise incorrect_login_exception /\
  @login_for_access_token Reference.environ Reference.jose
      Reference.pwd_context Reference.users_db "alice" "guess" 1000 =
    Raise incorrect_login_exception.
Proof.
  split.
  - apply (@login_invalid_credentials Reference.environ Reference.jose
             Reference.pwd_context Reference.users_db "mallory" "guess" 1000).
    left. vm_compute. reflexivity.
  - apply (@login_invalid_credentials Reference.environ Reference.jose
             Reference.pwd_context Reference.users_db "alice" "guess" 1000).
    right. exists Reference.alice. split; vm_compute; reflexivity.
Defined.

(** ** Token validation *)

(** Every failure of [jwt.decode] is caught by [except JWTError]. *)
Lemma decode_failure_caught (environ : gmap string string) `{jose : Jose}
    (token : string) (now : Z) (e : JoseError) :
  jwt_decode token (SECRET_KEY environ) [ALGORITHM] now = inl e ->
  decode_token_data environ token now = Raise credentials_exception.
Proof. intros H. unfold decode_token_data. rewrite H. reflexivity. Qed.

Lemma decode_success_subject (environ : gmap string string) `{jose : Jose}
    (token : string) (now : Z) (payload : Claims) (name : string) :
  jwt_decode token (SECRET_KEY environ) [ALGORITHM] now = inr payload ->
  claim_sub payload = Some name ->
  decode_token_data environ token now =
    Return {| td_username := Some name |}.
Proof.
  intros H Hs. unfold decode_token_data. rewrite H, Hs. reflexivity.
Qed.

(** What [get_current_user] does with a token that decodes. *)
Lemma get_current_user_decoded (environ : gmap string string)
    `{jose : Jose} (users_db : gmap string UserInDB) (token : string)
    (now : Z) (payload : Claims) (name : string) :
  jwt_decode token (SECRET_KEY environ) [ALGORITHM] now = inr payload ->
  claim_sub payload = Some name ->
  get_current_user environ users_db token now =
    match users_db !! name with
    | None => Raise credentials_exception
    | Some user =>
        if truthy (disabled user) then Raise inactive_user_exception
        else Return user
    end.
Proof.
  intros H Hs. unfold get_current_user.
  rewrite (decode_success_subject environ token now payload name H Hs).
  reflexivity.
Qed.

(** The token issued for a subject, decoded at a later time. *)
Lemma decode_issued (environ : gmap string string) `{jose : Jose}
    (spec : JoseSpec jose) (name : string) (t t' : Z) :
  jwt_decode
    (create_access_token environ
       {| claim_sub := Some name; claim_exp := None |} t)
    (SECRET_KEY environ) [ALGORITHM] t' =
  if t + 30 * 60 <=? t' then inl ExpiredSignatureError
  else inr {| claim_sub := Some name; claim_exp := Some (t + 30 * 60) |}.
Proof.
  unfold create_access_token.
  rewrite (jwt_decode_encode _ _ _ t' (t + 30 * 60)); reflexivity.
Qed.

(** C3, as stated, fails: a token issued for the disabled identity bob
    is rejected at its very issue time, inside its lifetime. *)
Lemma issued_token_counterexample :
  (1000 <= 1000 < 1000 + 30 * 60) /\
  @get_current_user Reference.environ Reference.jose Reference.users_db
      (Reference.issue "bob" 1000) 1000 =
    Raise inactive_user_exception /\
  @get_current_user Reference.environ Reference.jose Reference.users_db
      (Reference.issue "mallory" 1000) 1000 =
    Raise credentials_exception.
Proof. split; [lia|]. split; vm_compute; reflexivity. Qed.

(** C3 (amended): with a token library that meets [JoseSpec], for every
    identity whose record is in the user store and not disabled, the
    token issued for it at [t] validates, returning that record, at
    every [t'] with [t <= t' < t + TTL] (TTL = 30 minutes), and at every
    [t' >= t + TTL] validation fails with the 401 credentials error. *)
Theorem issued_token_lifetime (environ : gmap string string)
    `{jose : Jose} (spec : JoseSpec jose)
    (users_db : gmap string UserInDB) (id : string) (user : UserInDB)
    (t t' : Z) :
  users_db !! id = Some user ->
  truthy (disabled user) = false ->
  t <= t' ->
  let token :=
    create_access_token environ
      {| claim_sub := Some id; claim_exp := None |} t in
  (t' < t + 30 * 60 ->
   get_current_user environ users_db token t' = Return user) /\
  (t + 30 * 60 <= t' ->
   get_current_user environ users_db token t' = Raise credentials_exception).
Proof.
  intros Hu Hd _ token. subst token. split; intros Ht.
  - erewrite get_current_user_decoded;
      [ rewrite Hu, Hd; reflexivity
      | rewrite (decode_issued environ spec);
        destruct (Z.leb_spec (t + 30 * 60) t'); [lia | reflexivity]
      | reflexivity ].
  - unfold get_current_user.
    erewrite decode_failure_caught; [reflexivity|].
    rewrite (decode_issued environ spec).
    destruct (Z.leb_spec (t + 30 * 60) t'); [reflexivity | lia].
Qed.

Lemma issued_token_lifetime_witness :
  @get_current_user Reference.environ Reference.jose Reference.users_db
      (Reference.issue "alice" 1000) 2799 =
    Return Reference.alice /\
  @get_current_user Reference.environ Reference.jose Reference.users_db
      (Reference.issue "alice" 1000) 2800 =
    Raise credentials_exception.
Proof.
  assert (Reference.users_db !! "alice" = Some Reference.alice) as Hu
    by (vm_compute; reflexivity).
  split.
  - apply (@issued_token_lifetime Reference.environ Reference.jose
             reference_jose_spec Reference.users_db "alice" _ 1000 2799 Hu);
      [reflexivity | lia | lia].
  - apply (@issued_token_lifetime Reference.environ Reference.jose
             reference_jose_spec Reference.users_db "alice" _ 1000 2800 Hu);
      [reflexivity | lia | lia].
Defined.

(** A token that does not decode is answered with the credentials
    error, whatever the reason reported by the library. *)
Lemma get_current_user_undecodable (environ : gmap string string)
    `{jose : Jose} (users_db : gmap string UserInDB) (token : string)
    (now : Z) (e : JoseError) :
  jwt_decode token (SECRET_KEY environ) [ALGORITHM] now = inl e ->
  get_current_user environ users_db token now = Raise credentials_exception.
Proof.
  intros H. unfold get_current_user.
  rewrite (decode_failure_caught environ token now e H). reflexivity.
Qed.

(** C4, as stated, fails: one token does not parse, the other is
    well formed and signed but expired; the library reports the two
    kinds apart, and [get_current_user] answers both with the same
    error. *)
Lemma failure_kinds_counterexample :
  jwt_decode (Jose := Reference.jose) "not-a-token"
    (SECRET_KEY Reference.environ) [ALGORITHM] 5000 = inl JWTError /\
  jwt_decode (Jose := Reference.jose) (Reference.issue "alice" 1000)
    (SECRET_KEY Reference.environ) [ALGORITHM] 5000 =
    inl ExpiredSignatureError /\
  @get_current_user Reference.environ Reference.jose Reference.users_db
      "not-a-token" 5000 =
  @get_current_user Reference.environ Reference.jose Reference.users_db
      (Reference.issue "alice" 1000) 5000.
Proof. repeat split; vm_compute; reflexivity. Qed.

(** C4 (amended): for every token presented to validation, whatever
    makes decoding fail (the token cannot be parsed, its signature does
    not verify, or it is well formed, correctly signed and expired) the
    call fails with the one 401 "Could not validate credentials" error;
    the returned error does not tell the failure kinds apart. *)
Theorem validate_failure_uniform (environ : gmap string string)
    `{jose : Jose} (users_db : gmap string UserInDB) (token : string)
    (now : Z) (e : JoseError) :
  jwt_decode token (SECRET_KEY environ) [ALGORITHM] now = inl e ->
  get_current_user environ users_db token now = Raise credentials_exception /\
  response_status (get_current_user environ users_db token now) = 401.
Proof.
  intros H.
  rewrite (get_current_user_undecodable environ users_db token now e H).
  split; reflexivity.
Qed.

Lemma validate_failure_uniform_witness :
  @get_current_user Reference.environ Reference.jose Reference.users_db
      "not-a-token" 5000 = Raise credentials_exception /\
  @get_current_user Reference.environ Reference.jose Reference.users_db
      (Reference.issue "alice" 1000) 5000 = Raise credentials_exception.
Proof.
  split.
  - apply (@validate_failure_uniform Reference.environ Reference.jose
             Reference.users_db "not-a-token" 5000 JWTError).
    vm_compute. reflexivity.
  - apply (@validate_failure_uniform Reference.environ Reference.jose
             Reference.users_db (Reference.issue "alice" 1000) 5000
             ExpiredSignatureError).
    vm_compute. reflexivity.
Defined.

(** C9: validation consults the user store. A token that decodes (it is
    correctly signed and unexpired) and whose subject is not in the
    store fails with the 401 credentials error, the same error as any
    token that does not decode; with the subject's record in the store
    the same token validates, so the answer is not a function of the
    token alone. *)
Theorem validation_consults_user_store (environ : gmap string string)
    `{jose : Jose} (users_db : gmap string UserInDB) (token : string)
    (now : Z) (payload : Claims) (name : string) :
  jwt_decode token (SECRET_KEY environ) [ALGORITHM] now = inr payload ->
  claim_sub payload = Some name ->
  users_db !! name = None ->
  get_current_user environ users_db token now = Raise credentials_exception /\
  response_status (get_current_user environ users_db token now) = 401 /\
  (forall (bad : string) (e : JoseError),
     jwt_decode bad (SECRET_KEY environ) [ALGORITHM] now = inl e ->
     get_current_user environ users_db bad now =
     get_current_user environ users_db token now) /\
  (forall user : UserInDB,
     truthy (disabled user) = false ->
     get_current_user environ (<[name := user]> users_db) token now =
       Return user).
Proof.
  intros H Hs Hn.
  assert (get_current_user environ users_db token now =
          Raise credentials_exception) as Hout.
  { rewrite (get_current_user_decoded environ users_db token now payload
               name H Hs), Hn. reflexivity. }
  rewrite Hout. repeat split.
  - intros bad e Hbad.
    apply (get_current_user_undecodable environ users_db bad now e Hbad).
  - intros user Hd.
    rewrite (get_current_user_decoded environ _ token now payload name H Hs).
    rewrite lookup_insert_eq, Hd. reflexivity.
Qed.

Lemma validation_consults_user_store_witness :
  @get_current_user Reference.environ Reference.jose Reference.users_db
      (Reference.issue "mallory" 1000) 1500 = Raise credentials_exception.
Proof.
  apply (@validation_consults_user_store Reference.environ Reference.jose
           Reference.users_db (Reference.issue "mallory" 1000) 1500
           {| claim_sub := Some "mallory"; claim_exp := Some 2800 |}
           "mallory");
    vm_compute; reflexivity.
Defined.

(** ** Rate limiter *)

Section FixedWindow.
Context (W L : Z) (windows : gmap string RateWindow) (key : string)
        (now : Z).

Lemma TryAdmit_first :
  windows !! key = None -> 0 < L ->
  TryAdmit W L windows key now =
    (Accepted,
     <[key := {| window_start := now; count_in_window := 1 |}]> windows).
Proof.
  intros Hk HL. unfold TryAdmit. rewrite Hk. cbn.
  destruct (Z.ltb_spec 0 L); [reflexivity | lia].
Qed.

Lemma TryAdmit_room (w : RateWindow) :
  windows !! key = Some w -> now < window_start w + W ->
  count_in_window w < L ->
  TryAdmit W L windows key now =
    (Accepted,
     <[key := {| window_start := window_start w;
                 count_in_window := count_in_window w + 1 |}]> windows).
Proof.
  intros Hk Hw Hc. unfold TryAdmit. rewrite Hk.
  destruct (Z.leb_spec (window_start w + W) now); [lia|].
  destruct (Z.ltb_spec (count_in_window w) L); [reflexivity | lia].
Qed.

Lemma TryAdmit_full (w : RateWindow) :
  windows !! key = Some w -> now < window_start w + W ->
  L <= count_in_window w ->
  TryAdmit W L windows key now =
    (Rejected (window_start w + W - now), <[key := w]> windows).
Proof.
  intros Hk Hw Hc. unfold TryAdmit. rewrite Hk.
  destruct (Z.leb_spec (window_start w + W) now); [lia|].
  destruct (Z.ltb_spec (count_in_window w) L); [lia | reflexivity].
Qed.

Lemma TryAdmit_expired (w : RateWindow) :
  windows !! key = Some w -> window_start w + W <= now -> 0 < L ->
  TryAdmit W L windows key now =
    (Accepted,
     <[key := {| window_start := now; count_in_window := 1 |}]> windows).
Proof.
  intros Hk Hw HL. unfold TryAdmit. rewrite Hk.
  destruct (Z.leb_spec (window_start w + W) now); [|lia]. cbn.
  destruct (Z.ltb_spec 0 L); [reflexivity | lia].
Qed.


End FixedWindow.

(** C5: for one key with no window state, limit 5 and window 60 s, the
    first five calls inside the window are admitted, the sixth inside
    the same window is rejected with a positive retry-after, and a call
    at any time from the window boundary on is admitted again. *)
Theorem five_per_minute_window (windows : gmap string RateWindow)
    (key : string) (t1 t2 t3 t4 t5 t6 t7 : Z) :
  windows !! key = None ->
  Forall (fun t => t1 <= t < t1 + 60) [t2; t3; t4; t5; t6] ->
  t1 + 60 <= t7 ->
  (TryAdmit_all (per_seconds five_per_minute) (amount five_per_minute)
             windows key [t1; t2; t3; t4; t5; t6; t7]).1 =
    [Accepted; Accepted; Accepted; Accepted; Accepted;
     Rejected (t1 + 60 - t6); Accepted] /\
  0 < t1 + 60 - t6.
Proof.
  intros Hk Hin H7.
  repeat match goal with
         | H : Forall _ (_ :: _) |- _ =>
             apply Forall_cons in H; destruct H as [? H]
         end.
  split; [|lia].
  cbn [TryAdmit_all per_seconds amount five_per_minute].
  rewrite TryAdmit_first by (done || lia).
  do 4 (erewrite TryAdmit_room;
        [ | apply lookup_insert_eq | cbn; lia | cbn; lia ]; cbn).
  erewrite TryAdmit_full;
    [ | apply lookup_insert_eq | cbn; lia | cbn; lia ]; cbn.
  erewrite TryAdmit_expired;
    [ | apply lookup_insert_eq | cbn; lia | lia ].
  reflexivity.
Qed.

Lemma five_per_minute_window_witness :
  (TryAdmit_all 60 5 ∅ "10.0.0.1" [100; 101; 110; 120; 159; 159; 160]).1 =
    [Accepted; Accepted; Accepted; Accepted; Accepted; Rejected 1; Accepted].
Proof.
  apply (five_per_minute_window ∅ "10.0.0.1" 100 101 110 120 159 159 160).
  - apply lookup_empty.
  - repeat constructor; lia.
  - lia.
Defined.

(** ** The protected endpoints *)

Section Pipeline.
Context (environ : gmap string string) `{jose : Jose}.
Context (users_db : gmap string UserInDB).
Context {float : Type} (model : option (DummyModel float)).
Context (request : HttpRequest float) (now : Z) (w : world float).

Let token := bearer_token request.
Let host := client_host request.

(** The dependency failed: nothing after it runs. *)
Lemma post_inference_unauthorized (e : exn) :
  get_current_active_user environ users_db token now = Raise e ->
  post_inference environ users_db model request now w =
    (Raise e, log (Validate token) w).
Proof.
  intros H. unfold post_inference, mbind, M_bind, bind,
    Depends_current_active_user. subst token. rewrite H. reflexivity.
Qed.

(** The dependency succeeded: the decorator is entered with the parsed
    body as its [request] argument, and raises at once. *)
Lemma post_inference_authenticated (user : UserInDB) :
  get_current_active_user environ users_db token now = Return user ->
  post_inference environ users_db model request now w =
    (Raise (PyException not_a_request), log (Validate token) w).
Proof.
  intros H. unfold post_inference, mbind, M_bind, bind,
    Depends_current_active_user. subst token. rewrite H. reflexivity.
Qed.



(** The body of the endpoint logs at most the one call to the model
    and leaves the limiter's storage alone. *)
Lemma run_inference_effects (body : InferenceRequest float)
    (user : UserInDB) (w0 : world float) :
  limiter_storage (run_inference model body user w0).2 =
    limiter_storage w0 /\
  (trace (run_inference model body user w0).2 = trace w0 \/
   trace (run_inference model body user w0).2 =
     (trace w0 ++ [Dispatch (input_data body)])%list).
Proof.
  unfold run_inference, try_exceptM, raise, mbind, M_bind, bind,
    call_model, mret, M_ret, ret.
  destruct model as [m|]; cbn; [|auto].
  destruct (Z.of_nat (length (input_data body)) =? 10); cbn; [|auto].
  destruct (forward m (input_data body)); cbn; auto.
Qed.

(** A payload of the wrong length: the 400 raised inside the [try]
    block is caught by [except Exception] and replaced. *)
Lemma run_inference_wrong_length (m : DummyModel float)
    (body : InferenceRequest float) (user : UserInDB) (w0 : world float) :
  model = Some m ->
  Z.of_nat (length (input_data body)) <> 10 ->
  run_inference model body user w0 =
    (Raise (HTTPException 500
       "Inference failed: 400: Input data must have 10 elements" []), w0).
Proof.
  intros -> Hlen. unfold run_inference, try_exceptM, raise.
  destruct (Z.eqb_spec (Z.of_nat (length (input_data body))) 10);
    [contradiction | reflexivity].
Qed.

End Pipeline.

(** C1 at a three-element payload. The call is authenticated; the
    decorator then raises on its [request] argument before the limiter
    and the body run, and the application answers 500. The body itself,
    entered directly with the same payload, answers 500 as well: the
    400 it raises is caught by its own blanket handler. The model is
    never called. *)
Example wrong_length_answered_500 :
  let request :=
    Reference.call "10.0.0.1" (Reference.issue "alice" 1000) [1; 2; 3] in
  let result :=
    @post_inference Reference.environ Reference.jose Reference.users_db Z
      (Some Reference.model) request 1001 Reference.empty_world in
  let body :=
    run_inference (Some Reference.model) (json_body request) Reference.alice
      Reference.empty_world in
  result.1 = Raise (PyException not_a_request) /\
  response_status result.1 = 500 /\
  trace result.2 = [Validate (Reference.issue "alice" 1000)] /\
  limiter_storage result.2 = ∅ /\
  body.1 =
    Raise (HTTPException 500
      "Inference failed: 400: Input data must have 10 elements" []) /\
  response_status body.1 = 500 /\
  trace body.2 = [].
Proof. repeat split; vm_compute; reflexivity. Qed.

(** A failed token dependency ends the call: its error is the outcome,
    the limiter's storage is untouched and only the validation is
    logged. *)
Lemma auth_failure_short_circuits (environ : gmap string string)
    `{jose : Jose} (users_db : gmap string UserInDB) {float : Type}
    (model : option (DummyModel float)) (request : HttpRequest float)
    (now : Z) (w : world float) (e : exn) :
  get_current_active_user environ users_db (bearer_token request) now =
    Raise e ->
  (post_inference environ users_db model request now w).1 = Raise e /\
  limiter_storage (post_inference environ users_db model request now w).2 =
    limiter_storage w /\
  trace (post_inference environ users_db model request now w).2 =
    (trace w ++ [Validate (bearer_token request)])%list.
Proof.
  intros H.
  rewrite (post_inference_unauthorized environ users_db model request now w
             e H).
  auto.
Qed.

(** C7 at six calls of alice from one address within a minute, each
    with a valid token and a ten-element payload. The pipeline stops
    after Validate on every one of them: the decorator raises before
    the limiter is asked, so no call is admitted, none is throttled,
    the model is never called, and all six are answered 500. *)
Example sixth_call_not_throttled :
  let a :=
    Reference.call "10.0.0.1" (Reference.issue "alice" 1000) Reference.ten in
  let run :=
    @serve Reference.environ Reference.jose Reference.users_db Z
      (Some Reference.model)
      [(a, 1001); (a, 1002); (a, 1003); (a, 1004); (a, 1005); (a, 1006)]
      Reference.empty_world in
  run.1 = replicate 6 (Raise (PyException not_a_request)) /\
  map response_status run.1 = [500; 500; 500; 500; 500; 500] /\
  limiter_storage run.2 = ∅ /\
  trace run.2 = replicate 6 (Validate (Reference.issue "alice" 1000)).
Proof. repeat split; vm_compute; reflexivity. Qed.

(** C10: a protected call that presents a token which decodes and whose
    subject's record is disabled is rejected with the "Inactive user"
    error of status 400, which is not the 401 credentials error; the
    only call made is the validation, so neither the limiter nor the
    endpoint body (payload check, model) runs. *)
Theorem inactive_user_rejected (environ : gmap string string)
    `{jose : Jose} (users_db : gmap string UserInDB) {float : Type}
    (model : option (DummyModel float)) (request : HttpRequest float)
    (now : Z) (w : world float) (payload : Claims) (name : string)
    (user : UserInDB) :
  jwt_decode (bearer_token request) (SECRET_KEY environ) [ALGORITHM] now =
    inr payload ->
  claim_sub payload = Some name ->
  users_db !! name = Some user ->
  truthy (disabled user) = true ->
  post_inference environ users_db model request now w =
    (Raise (HTTPException 400 "Inactive user" []),
     log (Validate (bearer_token request)) w) /\
  read_users_me environ users_db request now w =
    (Raise (HTTPException 400 "Inactive user" []),
     log (Validate (bearer_token request)) w) /\
  response_status (post_inference environ users_db model request now w).1
    = 400 /\
  HTTPException 400 "Inactive user" [] <> credentials_exception.
Proof.
  intros Hdec Hsub Hu Hd.
  assert (get_current_active_user environ users_db (bearer_token request) now
          = Raise inactive_user_exception) as Hauth.
  { unfold get_current_active_user.
    rewrite (get_current_user_decoded environ users_db _ now payload name
               Hdec Hsub), Hu, Hd. reflexivity. }
  rewrite (post_inference_unauthorized environ users_db model request now w
             _ Hauth).
  unfold read_users_me, mbind, M_bind, bind, Depends_current_active_user.
  rewrite Hauth.
  repeat split. discriminate.
Qed.

Lemma inactive_user_rejected_witness :
  @post_inference Reference.environ Reference.jose Reference.users_db Z
     (Some Reference.model)
     (Reference.call "10.0.0.1" (Reference.issue "bob" 1000) Reference.ten)
     1001 Reference.empty_world =
  (Raise (HTTPException 400 "Inactive user" []),
   {| limiter_storage := ∅;
      trace := [Validate (Reference.issue "bob" 1000)] |}).
Proof.
  apply (@inactive_user_rejected Reference.environ Reference.jose
           Reference.users_db Z (Some Reference.model)
           (Reference.call "10.0.0.1" (Reference.issue "bob" 1000)
              Reference.ten)
           1001 Reference.empty_world
           {| claim_sub := Some "bob"; claim_exp := Some 2800 |} "bob"
           {| username := "bob"; email := None; full_name := None;
              disabled := Some true; hashed_password := "$ref$builder" |});
    vm_compute; reflexivity.
Defined.





(** * Further properties of the module *)

(** ** Token validation, case by case *)

(** The five ways through [get_current_user]. *)
Lemma get_current_user_cases (environ : gmap string string) `{jose : Jose}
    (users_db : gmap string UserInDB) (token : string) (now : Z) :
  let decoded := jwt_decode token (SECRET_KEY environ) [ALGORITHM] now in
  let result := get_current_user environ users_db token now in
  (exists e, decoded = inl e /\ result = Raise credentials_exception) \/
  (exists payload,
     decoded = inr payload /\ claim_sub payload = None /\
     result = Raise credentials_exception) \/
  (exists payload name,
     decoded = inr payload /\ claim_sub payload = Some name /\
     users_db !! name = None /\ result = Raise credentials_exception) \/
  (exists payload name user,
     decoded = inr payload /\ claim_sub payload = Some name /\
     users_db !! name = Some user /\ truthy (disabled user) = true /\
     result = Raise inactive_user_exception) \/
  (exists payload name user,
     decoded = inr payload /\ claim_sub payload = Some name /\
     users_db !! name = Some user /\ truthy (disabled user) = false /\
     result = Return user).
Proof.
  intros decoded result. subst decoded result.
  unfold get_current_user, decode_token_data, get_user.
  destruct (jwt_decode token (SECRET_KEY environ) [ALGORITHM] now)
    as [e|payload] eqn:Hd; cbn.
  { left. eauto. }
  destruct (claim_sub payload) as [name|] eqn:Hs; cbn.
  2:{ right; left. eauto. }
  destruct (users_db !! name) as [user|] eqn:Hu.
  2:{ right; right; left. exists payload, name. auto. }
  destruct (truthy (disabled user)) eqn:Ht.
  - right; right; right; left. exists payload, name, user. auto.
  - right; right; right; right. exists payload, name, user. auto.
Qed.

(** X1: [get_current_user] returns a record exactly when the token
    decodes, carries a subject, the subject is a key of the user table,
    and the record found there is not disabled; the record returned is
    the one in the table. *)
Theorem get_current_user_returns (environ : gmap string string)
    `{jose : Jose} (users_db : gmap string UserInDB) (token : string)
    (now : Z) (user : UserInDB) :
  get_current_user environ users_db token now = Return user <->
  exists payload name,
    jwt_decode token (SECRET_KEY environ) [ALGORITHM] now = inr payload /\
    claim_sub payload = Some name /\
    users_db !! name = Some user /\
    truthy (disabled user) = false.
Proof.
  split.
  - intros H.
    destruct (get_current_user_cases environ users_db token now)
      as [(e & _ & H') | [(p & _ & _ & H') | [(p & n & _ & _ & _ & H')
         | [(p & n & u & _ & _ & _ & _ & H')
           | (p & n & u & Hd & Hs & Hu & Ht & H')]]]];
      rewrite H in H'; try discriminate.
    injection H' as ->. eauto 6.
  - intros (payload & name & Hd & Hs & Hu & Ht).
    rewrite (get_current_user_decoded environ users_db token now payload
               name Hd Hs), Hu, Ht. reflexivity.
Qed.

Lemma get_current_user_returns_witness :
  exists payload name,
    jwt_decode (Jose := Reference.jose) (Reference.issue "alice" 1000)
      (SECRET_KEY Reference.environ) [ALGORITHM] 1500 = inr payload /\
    claim_sub payload = Some name /\
    Reference.users_db !! name = Some Reference.alice /\
    truthy (disabled Reference.alice) = false.
Proof.
  apply (@get_current_user_returns Reference.environ Reference.jose
           Reference.users_db (Reference.issue "alice" 1000) 1500
           Reference.alice).
  vm_compute. reflexivity.
Defined.

(** X2: [get_current_user] fails with one of two errors only: 400
    "Inactive user" exactly when the token decodes to a subject whose
    record is disabled, and the 401 credentials error in every other
    failing case (undecodable token, no subject, unknown subject). *)
Theorem get_current_user_raises (environ : gmap string string)
    `{jose : Jose} (users_db : gmap string UserInDB) (token : string)
    (now : Z) (e : exn) :
  get_current_user environ users_db token now = Raise e ->
  (e = inactive_user_exception /\
   exists payload name user,
     jwt_decode token (SECRET_KEY environ) [ALGORITHM] now = inr payload /\
     claim_sub payload = Some name /\
     users_db !! name = Some user /\ truthy (disabled user) = true) \/
  (e = credentials_exception /\
   forall payload name user,
     jwt_decode token (SECRET_KEY environ) [ALGORITHM] now = inr payload ->
     claim_sub payload = Some name ->
     users_db !! name = Some user -> False).
Proof.
  intros H.
  destruct (get_current_user_cases environ users_db token now)
    as [(e' & Hd & H') | [(p & Hd & Hs & H') | [(p & n & Hd & Hs & Hu & H')
       | [(p & n & u & Hd & Hs & Hu & Ht & H')
         | (p & n & u & _ & _ & _ & _ & H')]]]];
    rewrite H in H'; try discriminate; injection H' as ->.
  - right. split; [reflexivity|]. intros; congruence.
  - right. split; [reflexivity|]. intros; congruence.
  - right. split; [reflexivity|]. intros; congruence.
  - left. split; [reflexivity|]. eauto 7.
Qed.

Lemma get_current_user_raises_witness :
  (inactive_user_exception = inactive_user_exception /\
   exists payload name user,
     jwt_decode (Jose := Reference.jose) (Reference.issue "bob" 1000)
       (SECRET_KEY Reference.environ) [ALGORITHM] 1500 = inr payload /\
     claim_sub payload = Some name /\
     Reference.users_db !! name = Some user /\
     truthy (disabled user) = true) \/
  (inactive_user_exception = credentials_exception /\
   forall payload name user,
     jwt_decode (Jose := Reference.jose) (Reference.issue "bob" 1000)
       (SECRET_KEY Reference.environ) [ALGORITHM] 1500 = inr payload ->
     claim_sub payload = Some name ->
     Reference.users_db !! name = Some user -> False).
Proof.
  apply (@get_current_user_raises Reference.environ Reference.jose
           Reference.users_db (Reference.issue "bob" 1000) 1500
           inactive_user_exception).
  vm_compute. reflexivity.
Defined.

(** The wrapper adds nothing to the dependency it wraps. *)
Lemma get_current_active_user_cases_same (environ : gmap string string)
    `{jose : Jose} (users_db : gmap string UserInDB) (token : string)
    (now : Z) :
  get_current_active_user environ users_db token now =
  get_current_user environ users_db token now.
Proof.
  unfold get_current_active_user.
  destruct (get_current_user_cases environ users_db token now)
    as [(e' & _ & H') | [(p & _ & _ & H') | [(p & n & _ & _ & _ & H')
       | [(p & n & u & _ & _ & _ & _ & H')
         | (p & n & u & _ & _ & _ & Ht & H')]]]];
    rewrite H'; try reflexivity.
  rewrite Ht. reflexivity.
Qed.

(** X3: the second [disabled] test, in [get_current_active_user], never
    fires: the dependency it wraps has already rejected disabled
    records, so both functions give the same outcome on every token. *)
Theorem get_current_active_user_same (environ : gmap string string)
    `{jose : Jose} (users_db : gmap string UserInDB) (token : string)
    (now : Z) :
  get_current_active_user environ users_db token now =
  get_current_user environ users_db token now /\
  (forall user : UserInDB,
     get_current_user environ users_db token now = Return user ->
     truthy (disabled user) = false).
Proof.
  split; [apply get_current_active_user_cases_same|].
  intros user H.
  destruct (get_current_user_cases environ users_db token now)
    as [(e' & _ & H') | [(p & _ & _ & H') | [(p & n & _ & _ & _ & H')
       | [(p & n & u & _ & _ & _ & _ & H')
         | (p & n & u & _ & _ & _ & Ht & H')]]]];
    rewrite H in H'; try discriminate.
  injection H' as ->. exact Ht.
Qed.

(** X4: a token that decodes but carries no subject is answered with
    the 401 credentials error, whatever the user table holds. *)
Theorem token_without_subject (environ : gmap string string)
    `{jose : Jose} (users_db : gmap string UserInDB) (token : string)
    (now : Z) (payload : Claims) :
  jwt_decode token (SECRET_KEY environ) [ALGORITHM] now = inr payload ->
  claim_sub payload = None ->
  get_current_user environ users_db token now = Raise credentials_exception /\
  response_status (get_current_user environ users_db token now) = 401.
Proof.
  intros Hd Hs. unfold get_current_user, decode_token_data.
  rewrite Hd, Hs. split; reflexivity.
Qed.

Lemma token_without_subject_witness :
  @get_current_user Reference.environ Reference.jose Reference.users_db
    (@create_access_token Reference.environ Reference.jose
       {| claim_sub := None; claim_exp := None |} 1000) 1500 =
  Raise credentials_exception.
Proof.
  apply (@token_without_subject Reference.environ Reference.jose
           Reference.users_db _ 1500
           {| claim_sub := None; claim_exp := Some 2800 |});
    vm_compute; reflexivity.
Defined.

(** X5: whatever expiry the caller's data carries, [create_access_token]
    overwrites it: with a token library that meets [JoseSpec] the token
    decodes to the data's subject with expiry 30 minutes after issue,
    and is expired from that instant on. *)
Theorem issued_expiry_fixed (environ : gmap string string) `{jose : Jose}
    (spec : JoseSpec jose) (data : Claims) (t t' : Z) :
  jwt_decode (create_access_token environ data t)
    (SECRET_KEY environ) [ALGORITHM] t' =
  if t + 1800 <=? t' then inl ExpiredSignatureError
  else inr {| claim_sub := claim_sub data; claim_exp := Some (t + 1800) |}.
Proof.
  unfold create_access_token.
  rewrite (jwt_decode_encode _ _ _ t' (t + 1800)); reflexivity.
Qed.

Lemma issued_expiry_fixed_witness :
  jwt_decode (Jose := Reference.jose)
    (@create_access_token Reference.environ Reference.jose
       {| claim_sub := Some "alice"; claim_exp := Some 99999999 |} 1000)
    (SECRET_KEY Reference.environ) [ALGORITHM] 2800 =
  inl ExpiredSignatureError.
Proof.
  exact (@issued_expiry_fixed Reference.environ Reference.jose
           reference_jose_spec
           {| claim_sub := Some "alice"; claim_exp := Some 99999999 |}
           1000 2800).
Defined.

(** ** Login *)

(** X6: a successful login returns a bearer token whose signed claims
    are the [username] field of the stored record and an expiry 30
    minutes after the login, encoded under the process key with HS256;
    and it succeeds only for a stored record whose hash verifies. *)
Theorem login_token_contents (environ : gmap string string)
    `{jose : Jose} `{pwd_context : CryptContext}
    (users_db : gmap string UserInDB) (name password : string) (now : Z)
    (tok : Token) :
  login_for_access_token environ users_db name password now = Return tok ->
  token_type tok = "bearer" /\
  exists user,
    users_db !! name = Some user /\
    pwd_verify password (hashed_password user) = inr true /\
    access_token tok =
      jwt_encode {| claim_sub := Some (username user);
                    claim_exp := Some (now + 1800) |}
                 (SECRET_KEY environ) "HS256".
Proof.
  destruct (users_db !! name) as [user|] eqn:Hu.
  - rewrite (login_stored environ users_db name password now user Hu).
    destruct (pwd_verify password (hashed_password user)) as [e|[|]] eqn:Hv;
      intros H; try discriminate.
    injection H as <-. split; [reflexivity|].
    exists user. auto.
  - unfold login_for_access_token, authenticate_user, get_user.
    rewrite Hu. discriminate.
Qed.

Lemma login_token_contents_witness :
  token_type {| access_token := Reference.issue "alice" 1000;
                token_type := "bearer" |} = "bearer" /\
  exists user,
    Reference.users_db !! "alice" = Some user /\
    pwd_verify (CryptContext := Reference.pwd_context) "wonderland"
      (hashed_password user) = inr true /\
    Reference.issue "alice" 1000 =
      jwt_encode (Jose := Reference.jose)
        {| claim_sub := Some (username user); claim_exp := Some (1000 + 1800) |}
        (SECRET_KEY Reference.environ) "HS256".
Proof.
  apply (@login_token_contents Reference.environ Reference.jose
           Reference.pwd_context Reference.users_db "alice" "wonderland" 1000
           {| access_token := Reference.issue "alice" 1000;
              token_type := "bearer" |}).
  vm_compute. reflexivity.
Defined.

(** ** Login followed by a protected call *)

(** The claims a login signs, decoded later. *)
Lemma decode_login_token (environ : gmap string string) `{jose : Jose}
    `{pwd_context : CryptContext} (spec : JoseSpec jose)
    (users_db : gmap string UserInDB) (name password : string)
    (user : UserInDB) (t t' : Z) :
  users_db !! name = Some user ->
  pwd_verify password (hashed_password user) = inr true ->
  exists tok,
    login_for_access_token environ users_db name password t = Return tok /\
    jwt_decode (access_token tok) (SECRET_KEY environ) [ALGORITHM] t' =
      if t + 1800 <=? t' then inl ExpiredSignatureError
      else inr {| claim_sub := Some (username user);
                  claim_exp := Some (t + 1800) |}.
Proof.
  intros Hu Hv. eexists. split.
  - exact (login_ignores_disabled environ users_db name password t user
             Hu Hv).
  - cbn [access_token]. unfold create_access_token.
    rewrite (jwt_decode_encode _ _ _ t' (t + 1800)); reflexivity.
Qed.

(** X7: login and validation compose. For a record stored under its own
    [username], not disabled, and a password that verifies, the token
    returned by a login at [t] makes [get_current_active_user] return
    that record at every [t'] before [t + 30 min], and fail with the
    401 credentials error from [t + 30 min] on (with a token library
    that meets [JoseSpec]). *)
Theorem login_then_call (environ : gmap string string) `{jose : Jose}
    `{pwd_context : CryptContext} (spec : JoseSpec jose)
    (users_db : gmap string UserInDB) (name password : string)
    (user : UserInDB) (t t' : Z) :
  users_db !! name = Some user ->
  users_db !! username user = Some user ->
  pwd_verify password (hashed_password user) = inr true ->
  truthy (disabled user) = false ->
  exists tok,
    login_for_access_token environ users_db name password t = Return tok /\
    get_current_active_user environ users_db (access_token tok) t' =
      if t + 1800 <=? t' then Raise credentials_exception else Return user.
Proof.
  intros Hu Hk Hv Hd.
  destruct (decode_login_token environ spec users_db name password user t t'
              Hu Hv) as (tok & Hlogin & Hdec).
  exists tok. split; [exact Hlogin|].
  unfold get_current_active_user.
  destruct (t + 1800 <=? t').
  - rewrite (get_current_user_undecodable environ users_db _ t' _ Hdec).
    reflexivity.
  - rewrite (get_current_user_decoded environ users_db _ t' _ _ Hdec eq_refl).
    rewrite Hk, Hd, Hd. reflexivity.
Qed.

Lemma login_then_call_witness :
  exists tok,
    @login_for_access_token Reference.environ Reference.jose
      Reference.pwd_context Reference.users_db "alice" "wonderland" 1000 =
      Return tok /\
    @get_current_active_user Reference.environ Reference.jose
      Reference.users_db (access_token tok) 2799 = Return Reference.alice.
Proof.
  apply (@login_then_call Reference.environ Reference.jose
           Reference.pwd_context reference_jose_spec Reference.users_db
           "alice" "wonderland" Reference.alice 1000 2799);
    vm_compute; reflexivity.
Defined.

(** X8: a disabled record can log in but cannot use the token. With a
    password that verifies, the login succeeds, and every protected
    call with the returned token is refused: 400 "Inactive user" before
    the token expires, the 401 credentials error afterwards. *)
Theorem disabled_login_then_call (environ : gmap string string)
    `{jose : Jose} `{pwd_context : CryptContext} (spec : JoseSpec jose)
    (users_db : gmap string UserInDB) (name password : string)
    (user : UserInDB) (t t' : Z) :
  users_db !! name = Some user ->
  users_db !! username user = Some user ->
  pwd_verify password (hashed_password user) = inr true ->
  truthy (disabled user) = true ->
  exists tok,
    login_for_access_token environ users_db name password t = Return tok /\
    get_current_active_user environ users_db (access_token tok) t' =
      if t + 1800 <=? t' then Raise credentials_exception
      else Raise inactive_user_exception.
Proof.
  intros Hu Hk Hv Hd.
  destruct (decode_login_token environ spec users_db name password user t t'
              Hu Hv) as (tok & Hlogin & Hdec).
  exists tok. split; [exact Hlogin|].
  unfold get_current_active_user.
  destruct (t + 1800 <=? t').
  - rewrite (get_current_user_undecodable environ users_db _ t' _ Hdec).
    reflexivity.
  - rewrite (get_current_user_decoded environ users_db _ t' _ _ Hdec eq_refl).
    rewrite Hk, Hd. reflexivity.
Qed.

Lemma disabled_login_then_call_witness :
  exists tok,
    @login_for_access_token Reference.environ Reference.jose
      Reference.pwd_context Reference.users_db "bob" "builder" 1000 =
      Return tok /\
    @get_current_active_user Reference.environ Reference.jose
      Reference.users_db (access_token tok) 1001 =
      Raise inactive_user_exception.
Proof.
  assert (Reference.users_db !! "bob" =
          Some {| username := "bob"; email := None; full_name := None;
                  disabled := Some true;
                  hashed_password := "$ref$builder" |}) as Hu
    by (vm_compute; reflexivity).
  apply (@disabled_login_then_call Reference.environ Reference.jose
           Reference.pwd_context reference_jose_spec Reference.users_db
           "bob" "builder" _ 1000 1001 Hu);
    vm_compute; reflexivity.
Defined.

(** X9: the token names the record's [username] field, not the key the
    record was found under. When a record is stored under a key other
    than its [username] and no record is stored under that [username],
    the login succeeds and the token it returns is never accepted. *)
Theorem login_token_of_misfiled_record (environ : gmap string string)
    `{jose : Jose} `{pwd_context : CryptContext} (spec : JoseSpec jose)
    (users_db : gmap string UserInDB) (name password : string)
    (user : UserInDB) (t t' : Z) :
  users_db !! name = Some user ->
  users_db !! username user = None ->
  pwd_verify password (hashed_password user) = inr true ->
  exists tok,
    login_for_access_token environ users_db name password t = Return tok /\
    get_current_user environ users_db (access_token tok) t' =
      Raise credentials_exception.
Proof.
  intros Hu Hk Hv.
  destruct (decode_login_token environ spec users_db name password user t t'
              Hu Hv) as (tok & Hlogin & Hdec).
  exists tok. split; [exact Hlogin|].
  destruct (t + 1800 <=? t').
  - exact (get_current_user_undecodable environ users_db _ t' _ Hdec).
  - rewrite (get_current_user_decoded environ users_db _ t' _ _ Hdec eq_refl).
    rewrite Hk. reflexivity.
Qed.

Lemma login_token_of_misfiled_record_witness :
  exists tok,
    @login_for_access_token Reference.environ Reference.jose
      Reference.pwd_context {[ "al" := Reference.alice ]} "al" "wonderland"
      1000 = Return tok /\
    @get_current_user Reference.environ Reference.jose
      {[ "al" := Reference.alice ]} (access_token tok) 1001 =
      Raise credentials_exception.
Proof.
  apply (@login_token_of_misfiled_record Reference.environ Reference.jose
           Reference.pwd_context reference_jose_spec
           {[ "al" := Reference.alice ]} "al" "wonderland" Reference.alice
           1000 1001);
    vm_compute; reflexivity.
Defined.

(** X10: on the module's own table [fake_users_db] a login returns a
    token exactly for the name "testuser" with a password the
    verification accepts against the hash of "testpassword"; it gets
    the 401 login error for every other name and for a password the
    verification answers false to; and when the verification raises
    (only possible for the name "testuser") the exception leaves the
    endpoint and is answered 500. *)
Theorem module_table_login (environ : gmap string string) `{jose : Jose}
    `{pwd_context : CryptContext} (name password : string) (now : Z) :
  let verified := pwd_verify password (pwd_hash "testpassword") in
  let login := login_for_access_token environ fake_users_db name password now
  in
  (name = "testuser" /\ verified = inr true ->
   login =
     Return {| access_token :=
                 create_access_token environ
                   {| claim_sub := Some "testuser"; claim_exp := None |} now;
               token_type := "bearer" |}) /\
  (name <> "testuser" \/ verified = inr false ->
   login = Raise incorrect_login_exception) /\
  (forall e, name = "testuser" /\ verified = inl e ->
   login = Raise (PasslibException e) /\ response_status login = 500).
Proof.
  intros verified login. subst verified login.
  destruct (decide (name = "testuser")) as [->|Hne].
  - erewrite login_stored; [|apply lookup_singleton_eq].
    cbn [hashed_password username].
    destruct (pwd_verify password (pwd_hash "testpassword")) as [e|[|]].
    + split; [intros [_ H]; discriminate|].
      split; [intros [H|H]; [contradiction | discriminate]|].
      intros e' [_ H]. injection H as <-. split; reflexivity.
    + split; [reflexivity|].
      split; [intros [H|H]; [contradiction | discriminate]|].
      intros e' [_ H]. discriminate.
    + split; [intros [_ H]; discriminate|].
      split; [reflexivity|].
      intros e' [_ H]. discriminate.
  - unfold login_for_access_token, authenticate_user, get_user, fake_users_db.
    rewrite lookup_singleton_ne by congruence.
    split; [intros [H _]; contradiction|].
    split; [reflexivity|].
    intros e' [H _]. contradiction.
Qed.

Lemma module_table_login_witness :
  @login_for_access_token Reference.environ Reference.jose
    Reference.pwd_context (@fake_users_db Reference.pwd_context)
    "testuser" "testpassword" 1000 =
  Return {| access_token := Reference.issue "testuser" 1000;
            token_type := "bearer" |} /\
  @login_for_access_token Reference.environ Reference.jose
    Reference.pwd_context (@fake_users_db Reference.pwd_context)
    "testuser" "letmein" 1000 = Raise incorrect_login_exception /\
  @login_for_access_token Reference.environ Reference.jose
    Reference.pwd_context (@fake_users_db Reference.pwd_context)
    "testuser" (String Ascii.zero "x") 1000 =
    Raise (PasslibException PasswordValueError).
Proof.
  destruct (@module_table_login Reference.environ Reference.jose
              Reference.pwd_context "testuser" "testpassword" 1000)
    as (Hyes & _ & _).
  destruct (@module_table_login Reference.environ Reference.jose
              Reference.pwd_context "testuser" "letmein" 1000)
    as (_ & Hno & _).
  destruct (@module_table_login Reference.environ Reference.jose
              Reference.pwd_context "testuser" (String Ascii.zero "x") 1000)
    as (_ & _ & Hraise).
  split; [|split].
  - apply Hyes. split; vm_compute; reflexivity.
  - apply Hno. right. vm_compute. reflexivity.
  - apply (Hraise PasswordValueError). split; vm_compute; reflexivity.
Defined.

(** ** The body of the inference endpoint *)

(** Whatever [run_inference] raises is the 500 built by its handler. *)
Lemma run_inference_raises {float : Type} (model : option (DummyModel float))
    (body : InferenceRequest float) (user : UserInDB) (w : world float)
    (e : exn) :
  (run_inference model body user w).1 = Raise e ->
  exists cause : exn,
    e = HTTPException 500 ("Inference failed: " +:+ exn_str cause) [].
Proof.
  unfold run_inference, try_exceptM, raise, mbind, M_bind, bind,
    call_model, mret, M_ret, ret.
  destruct model as [m|]; cbn.
  - destruct (Z.of_nat (length (input_data body)) =? 10); cbn.
    + destruct (forward m (input_data body)) as [out|cause]; cbn;
        intros H; [discriminate|]. injection H as <-.
      exists cause. reflexivity.
    + intros H. injection H as <-.
      exists (HTTPException HTTP_400_BAD_REQUEST
                "Input data must have 10 elements" []).
      reflexivity.
  - intros H. injection H as <-.
    exists (HTTPException HTTP_503_SERVICE_UNAVAILABLE
              "AI model not loaded" []).
    reflexivity.
Qed.

(** X11: [POST /inference] never returns a result. A call whose token
    dependency fails is answered with that error (401 or 400); every
    call whose token is accepted is answered with the exception of the
    decorator, which no handler but the one for unhandled errors
    takes: status 500. *)
Theorem post_inference_never_returns (environ : gmap string string)
    `{jose : Jose} (users_db : gmap string UserInDB) {float : Type}
    (model : option (DummyModel float)) (request : HttpRequest float)
    (now : Z) (w : world float) :
  (post_inference environ users_db model request now w).1 =
    match get_current_user environ users_db (bearer_token request) now with
    | Return _ => Raise (PyException not_a_request)
    | Raise e => Raise e
    end /\
  (response_status (post_inference environ users_db model request now w).1
     = 401 \/
   response_status (post_inference environ users_db model request now w).1
     = 400 \/
   response_status (post_inference environ users_db model request now w).1
     = 500).
Proof.
  pose proof (get_current_active_user_cases_same environ users_db
                (bearer_token request) now) as Hsame.
  destruct (get_current_user_cases environ users_db (bearer_token request)
              now)
    as [(je & _ & H') | [(p & _ & _ & H') | [(p & n & _ & _ & _ & H')
       | [(p & n & u & _ & _ & _ & _ & H')
         | (p & n & u & _ & _ & _ & _ & H')]]]];
    rewrite H' in Hsame |- *.
  1-4: rewrite (post_inference_unauthorized environ users_db model request
                  now w _ Hsame); cbn; auto.
  rewrite (post_inference_authenticated environ users_db model request
             now w _ Hsame); cbn; auto.
Qed.

(** X12: the body of [run_inference], entered with the model loaded, a
    payload of exactly ten elements and a model call that returns,
    answers with the model's output together with the request's
    [model_version], after one call to the model on that payload. *)
Theorem inference_served {float : Type} (m : DummyModel float)
    (body : InferenceRequest float) (user : UserInDB) (w : world float)
    (output : list float) :
  length (input_data body) = 10%nat ->
  forward m (input_data body) = Return output ->
  run_inference (Some m) body user w =
    (Return {| prediction := output;
               response_model_version := model_version body |},
     log (Dispatch (input_data body)) w).
Proof.
  intros Hlen Hout.
  unfold run_inference, try_exceptM, mbind, M_bind, bind, call_model, mret,
    M_ret, ret.
  rewrite Hlen. change (negb (Z.of_nat 10 =? 10)) with false.
  cbn. rewrite Hout. reflexivity.
Qed.

Lemma inference_served_witness :
  run_inference (Some Reference.model)
    {| input_data := Reference.ten; model_version := Some "v1" |}
    Reference.alice Reference.empty_world =
  (Return {| prediction := [55]; response_model_version := Some "v1" |},
   {| limiter_storage := ∅; trace := [Dispatch Reference.ten] |}).
Proof.
  apply (@inference_served Z Reference.model
           {| input_data := Reference.ten; model_version := Some "v1" |}
           Reference.alice Reference.empty_world [55]);
    vm_compute; reflexivity.
Defined.

(** X13: the body of [run_inference], entered when the model failed to
    load, answers 500 on every payload: the 503 "AI model not loaded"
    it raises is caught by its own blanket handler and only survives
    inside the detail text. The model is not called. *)
Theorem model_not_loaded {float : Type} (body : InferenceRequest float)
    (user : UserInDB) (w : world float) :
  run_inference None body user w =
    (Raise (HTTPException 500
              "Inference failed: 503: AI model not loaded" []), w) /\
  response_status (run_inference None body user w).1 = 500.
Proof. split; reflexivity. Qed.

(** X14: the body of [run_inference] wraps a failure of the model and
    does not retry. When the model raises on a ten-element payload the
    answer is a 500 whose detail is "Inference failed: " followed by the
    text of the exception, after exactly one call to the model. *)
Theorem model_failure_wrapped {float : Type} (m : DummyModel float)
    (body : InferenceRequest float) (user : UserInDB) (w : world float)
    (cause : exn) :
  length (input_data body) = 10%nat ->
  forward m (input_data body) = Raise cause ->
  run_inference (Some m) body user w =
    (Raise (HTTPException 500 ("Inference failed: " +:+ exn_str cause) []),
     log (Dispatch (input_data body)) w).
Proof.
  intros Hlen Hout.
  unfold run_inference, try_exceptM, mbind, M_bind, bind, call_model, mret,
    M_ret, ret, raise.
  rewrite Hlen. change (negb (Z.of_nat 10 =? 10)) with false.
  cbn. rewrite Hout. reflexivity.
Qed.

Lemma model_failure_wrapped_witness :
  (run_inference
     (Some {| forward := fun _ => Raise (RuntimeError "shape mismatch") |})
     {| input_data := Reference.ten; model_version := None |}
     Reference.alice Reference.empty_world).1 =
  Raise (HTTPException 500 "Inference failed: shape mismatch" []).
Proof.
  rewrite (@model_failure_wrapped Z
             {| forward := fun _ => Raise (RuntimeError "shape mismatch") |}
             {| input_data := Reference.ten; model_version := None |}
             Reference.alice Reference.empty_world
             (RuntimeError "shape mismatch"));
    vm_compute; reflexivity.
Defined.

(** X15: [POST /inference] never reaches the limiter or the model. On
    every call the limiter's storage is left as it was and the only
    call logged is the validation of the token. *)
Theorem post_inference_leaves_limiter (environ : gmap string string)
    `{jose : Jose} (users_db : gmap string UserInDB) {float : Type}
    (model : option (DummyModel float)) (request : HttpRequest float)
    (now : Z) (w : world float) :
  limiter_storage (post_inference environ users_db model request now w).2 =
    limiter_storage w /\
  trace (post_inference environ users_db model request now w).2 =
    (trace w ++ [Validate (bearer_token request)])%list.
Proof.
  destruct (get_current_active_user environ users_db (bearer_token request)
              now) as [user|e] eqn:Hauth.
  - rewrite (post_inference_authenticated environ users_db model request
               now w user Hauth). auto.
  - rewrite (post_inference_unauthorized environ users_db model request
               now w e Hauth). auto.
Qed.

(** ** The profile endpoint *)

(** X16: [GET /users/me] answers with the public fields (username,
    email, full name, disabled flag) of the record [get_current_user]
    returns for the bearer token, and with its error otherwise; the
    password hash is not part of the answer. The endpoint is not rate
    limited: the limiter's storage is neither read nor changed. *)
Theorem users_me_not_limited (environ : gmap string string) `{jose : Jose}
    (users_db : gmap string UserInDB) {float : Type}
    (request : HttpRequest float) (now : Z) (w : world float) :
  (read_users_me environ users_db request now w).1 =
    match get_current_user environ users_db (bearer_token request) now with
    | Return user =>
        Return {| user_username := username user;
                  user_email := email user;
                  user_full_name := full_name user;
                  user_disabled := disabled user |}
    | Raise e => Raise e
    end /\
  limiter_storage (read_users_me environ users_db request now w).2 =
    limiter_storage w /\
  trace (read_users_me environ users_db request now w).2 =
    (trace w ++ [Validate (bearer_token request)])%list.
Proof.
  unfold read_users_me, mbind, M_bind, bind, Depends_current_active_user.
  rewrite get_current_active_user_cases_same.
  destruct (get_current_user environ users_db (bearer_token request) now);
    cbn; auto.
Qed.

Lemma get_current_active_user_same_witness :
  @get_current_active_user Reference.environ Reference.jose
    Reference.users_db (Reference.issue "alice" 1000) 1500 =
  @get_current_user Reference.environ Reference.jose
    Reference.users_db (Reference.issue "alice" 1000) 1500 /\
  truthy (disabled Reference.alice) = false.
Proof.
  destruct (@get_current_active_user_same Reference.environ Reference.jose
              Reference.users_db (Reference.issue "alice" 1000) 1500)
    as [Hsame Henabled].
  split; [exact Hsame|].
  apply Henabled. vm_compute. reflexivity.
Defined.

Section StorageOnly.
Context (environ : gmap string string) `{jose : Jose}.
Context (users_db : gmap string UserInDB).
Context {float : Type} (model : option (DummyModel float)).

(** The answer to a call does not depend on the process state. *)
Lemma post_inference_outcome (request : HttpRequest float) (now : Z)
    (w1 w2 : world float) :
  (post_inference environ users_db model request now w1).1 =
  (post_inference environ users_db model request now w2).1.
Proof.
  destruct (get_current_active_user environ users_db (bearer_token request)
              now) as [user|e] eqn:Hauth.
  - rewrite !(post_inference_authenticated environ users_db model request
                now _ user Hauth). reflexivity.
  - rewrite !(post_inference_unauthorized environ users_db model request
                now _ e Hauth). reflexivity.
Qed.

Lemma serve_outcomes (calls : list (HttpRequest float * Z)) :
  forall w1 w2 : world float,
    (serve environ users_db model calls w1).1 =
    (serve environ users_db model calls w2).1.
Proof.
  induction calls as [|[request now] calls IH]; intros w1 w2;
    [reflexivity|].
  cbn [serve].
  pose proof (post_inference_outcome request now w1 w2) as Ho.
  destruct (post_inference environ users_db model request now w1)
    as [o1 w1'].
  destruct (post_inference environ users_db model request now w2)
    as [o2 w2'].
  cbn in Ho. specialize (IH w1' w2').
  destruct (serve environ users_db model calls w1') as [rest1 ?].
  destruct (serve environ users_db model calls w2') as [rest2 ?].
  cbn in IH |- *. congruence.
Qed.

End StorageOnly.

(** X17: a call that fails authentication costs nothing. Served before
    any sequence of calls, it is answered with its authentication error
    and the answers to the calls that follow are the ones they would
    get without it: unauthenticated traffic cannot use up the quota of
    an address. *)
Theorem failed_auth_does_not_throttle (environ : gmap string string)
    `{jose : Jose} (users_db : gmap string UserInDB) {float : Type}
    (model : option (DummyModel float)) (bad : HttpRequest float) (t : Z)
    (calls : list (HttpRequest float * Z)) (w : world float) (e : exn) :
  get_current_active_user environ users_db (bearer_token bad) t = Raise e ->
  (serve environ users_db model ((bad, t) :: calls) w).1 =
    Raise e :: (serve environ users_db model calls w).1.
Proof.
  intros Hauth. cbn [serve].
  rewrite (post_inference_unauthorized environ users_db model bad t w e
             Hauth).
  pose proof (serve_outcomes environ users_db model calls
                (log (Validate (bearer_token bad)) w) w) as Hrest.
  destruct (serve environ users_db model calls
              (log (Validate (bearer_token bad)) w)) as [rest ?].
  cbn in Hrest |- *. rewrite Hrest. reflexivity.
Qed.

Lemma failed_auth_does_not_throttle_witness :
  map response_status
    (@serve Reference.environ Reference.jose Reference.users_db Z
       (Some Reference.model)
       [ (Reference.call "10.0.0.1" "not-a-token" Reference.ten, 1001);
         (Reference.call "10.0.0.1" (Reference.issue "alice" 1000)
            Reference.ten, 1002) ]
       Reference.empty_world).1 = [401; 500].
Proof.
  rewrite (@failed_auth_does_not_throttle Reference.environ Reference.jose
             Reference.users_db Z (Some Reference.model)
             (Reference.call "10.0.0.1" "not-a-token" Reference.ten) 1001
             [ (Reference.call "10.0.0.1" (Reference.issue "alice" 1000)
                  Reference.ten, 1002) ]
             Reference.empty_world credentials_exception);
    vm_compute; reflexivity.
Defined.

(** ** Tampering with the signature segment *)

Lemma rsplit_dot_none (s : string) :
  Jws.has_dot s = false -> Jws.rsplit_dot s = None.
Proof.
  induction s as [|c s IH]; cbn; [reflexivity|].
  intros H. apply orb_false_iff in H as [Hc Hs].
  rewrite (IH Hs), Hc. reflexivity.
Qed.

(** A token is cut at the dot before a segment that has no dot. *)
Lemma rsplit_dot_app (signing_input segment : string) :
  Jws.has_dot segment = false ->
  Jws.rsplit_dot (signing_input +:+ "." +:+ segment) =
    Some (signing_input, segment).
Proof.
  intros H. induction signing_input as [|c s IH].
  - change (Jws.rsplit_dot (String "."%char segment) =
            Some (EmptyString, segment)).
    cbn [Jws.rsplit_dot]. rewrite (rsplit_dot_none segment H). reflexivity.
  - change (Jws.rsplit_dot (String c (s +:+ "." +:+ segment)) =
            Some (String c s, segment)).
    cbn [Jws.rsplit_dot]. rewrite IH. reflexivity.
Qed.

Section SignatureSegment.
Context (mac : string -> string -> string).
Context (allows : string -> list string -> bool).
Context (loads : string -> Z -> JoseError + Claims).
Context (enc : Claims -> string -> string -> string).
Context (key : string) (algorithms : list string) (now : Z).
Context (signing_input segment : string).
Context (Hsegment : Jws.has_dot segment = false).

(** Decoding reads the signature segment only through the bytes it
    decodes to. *)
Lemma decode_by_signature_bytes :
  Jws.decode mac allows loads (signing_input +:+ "." +:+ segment) key
    algorithms now =
  match Jws.split_dot signing_input with
  | None => inl JWTError
  | Some (header_segment, claims_segment) =>
      match Jws.base64url_decode header_segment,
            Jws.base64url_decode claims_segment,
            Jws.base64url_decode segment with
      | Some header, Some payload, Some signature =>
          if allows header algorithms
             && String.eqb signature (mac key signing_input)
          then loads payload now
          else inl JWTError
      | _, _, _ => inl JWTError
      end
  end.
Proof.
  unfold Jws.decode. rewrite (rsplit_dot_app _ _ Hsegment). reflexivity.
Qed.

(** A token that decodes carries the digest of its signing input. *)
Lemma decoded_signature (claims : Claims) :
  Jws.decode mac allows loads (signing_input +:+ "." +:+ segment) key
    algorithms now = inr claims ->
  Jws.base64url_decode segment = Some (mac key signing_input).
Proof.
  rewrite decode_by_signature_bytes.
  destruct (Jws.split_dot signing_input) as [[h c]|]; [|discriminate].
  destruct (Jws.base64url_decode h); [|discriminate].
  destruct (Jws.base64url_decode c); [|discriminate].
  destruct (Jws.base64url_decode segment) as [signature|]; [|discriminate].
  destruct (allows _ _); cbn; [|discriminate].
  destruct (String.eqb_spec signature (mac key signing_input));
    [congruence | discriminate].
Qed.

End SignatureSegment.

(** Any other signature segment, by the bytes it decodes to. *)
Lemma decode_other_segment (mac : string -> string -> string)
    (allows : string -> list string -> bool)
    (loads : string -> Z -> JoseError + Claims)
    (key : string) (algorithms : list string) (now : Z)
    (signing_input segment segment' : string) (claims : Claims) :
  Jws.has_dot segment = false ->
  Jws.has_dot segment' = false ->
  Jws.decode mac allows loads (signing_input +:+ "." +:+ segment) key
    algorithms now = inr claims ->
  Jws.decode mac allows loads (signing_input +:+ "." +:+ segment') key
    algorithms now =
  if decide (Jws.base64url_decode segment' = Jws.base64url_decode segment)
  then inr claims else inl JWTError.
Proof.
  intros Hs Hs' Hd.
  pose proof (decoded_signature mac allows loads key algorithms now
                signing_input segment Hs claims Hd) as Hsig.
  rewrite (decode_by_signature_bytes mac allows loads key algorithms now
             signing_input segment Hs) in Hd.
  rewrite (decode_by_signature_bytes mac allows loads key algorithms now
             signing_input segment' Hs').
  rewrite Hsig in Hd |- *.
  destruct (Jws.split_dot signing_input) as [[h c]|]; [|discriminate].
  destruct (Jws.base64url_decode h); [|discriminate].
  destruct (Jws.base64url_decode c); [|discriminate].
  destruct (decide (Jws.base64url_decode segment' =
                    Some (mac key signing_input))) as [->|Hne];
    [exact Hd|].
  destruct (Jws.base64url_decode segment') as [signature|]; [|reflexivity].
  destruct (String.eqb_spec signature (mac key signing_input));
    [congruence|].
  rewrite andb_false_r. reflexivity.
Qed.

(** C8, as stated, fails. The first token is the one the module issues
    to testuser under its default key (HS256); the second differs from
    it in one bit of the last character of the signature segment, [U]
    turned into [W]. Only the two unused trailing bits of that
    character change, the segment decodes to the same 32 bytes, and the
    mutated token validates and returns the identity of the original
    one. *)
Lemma signature_bit_flip_counterexample :
  let signing_input :=
    "eyJhbGciOiJIUzI1NiIsInR5cCI6IkpXVCJ9.eyJzdWIiOiJ0ZXN0dXNlciIsImV4cCI6NDEwMjQ0NDgwMn0"
  in
  let token :=
    signing_input +:+ ".xM7iFA2gHjuF38Nj6d349Nwb8qqCMlZc1dMAWwMf5lU" in
  let mutated :=
    signing_input +:+ ".xM7iFA2gHjuF38Nj6d349Nwb8qqCMlZc1dMAWwMf5lW" in
  let users_db := @fake_users_db Reference.pwd_context in
  token =
    @create_access_token ∅ Jws.jose
      {| claim_sub := Some "testuser"; claim_exp := None |} 4102443002 /\
  Jws.single_bit_flip token mutated = true /\
  Jws.rsplit_dot mutated =
    Some (signing_input, "xM7iFA2gHjuF38Nj6d349Nwb8qqCMlZc1dMAWwMf5lW") /\
  exists user,
    username user = "testuser" /\
    @get_current_user ∅ Jws.jose users_db token 4102443100 = Return user /\
    @get_current_user ∅ Jws.jose users_db mutated 4102443100 = Return user.
Proof.
  cbv zeta. split; [vm_compute; reflexivity|].
  split; [vm_compute; reflexivity|].
  split; [vm_compute; reflexivity|].
  eexists. split; [|split]; [|vm_compute; reflexivity..].
  reflexivity.
Qed.

(** C8 (amended): for every token that validates and every other
    signature segment put in place of its own (the part after the last
    dot), validation fails with the 401 credentials error and returns
    no identity whenever the new segment decodes to other bytes than
    the original one or does not decode; when it decodes to the same
    bytes, validation returns what it returned for the original token.
    This holds whatever the keyed digest, the header test and the
    claims reader are. *)
Theorem signature_segment_mutation (mac : string -> string -> string)
    (allows : string -> list string -> bool)
    (loads : string -> Z -> JoseError + Claims)
    (enc : Claims -> string -> string -> string)
    (environ : gmap string string) (users_db : gmap string UserInDB)
    (signing_input segment segment' : string) (now : Z) (user : UserInDB) :
  let validate :=
    @get_current_user environ (Jws.jose_of mac allows loads enc) users_db in
  Jws.has_dot segment = false ->
  Jws.has_dot segment' = false ->
  validate (signing_input +:+ "." +:+ segment) now = Return user ->
  validate (signing_input +:+ "." +:+ segment') now =
    if decide (Jws.base64url_decode segment' = Jws.base64url_decode segment)
    then Return user
    else Raise credentials_exception.
Proof.
  intros validate Hs Hs' Hv. subst validate.
  destruct (@get_current_user_cases environ
              (Jws.jose_of mac allows loads enc) users_db
              (signing_input +:+ "." +:+ segment) now)
    as [(je & _ & H') | [(p & _ & _ & H') | [(p & n & _ & _ & _ & H')
       | [(p & n & u & _ & _ & _ & _ & H')
         | (p & n & u & Hd & Hsub & _ & _ & _)]]]];
    try (rewrite Hv in H'; discriminate).
  cbn [jwt_decode Jws.jose_of] in Hd.
  pose proof (decode_other_segment mac allows loads (SECRET_KEY environ)
                [ALGORITHM] now signing_input segment segment' p Hs Hs' Hd)
    as Hd'.
  destruct (decide (Jws.base64url_decode segment' =
                    Jws.base64url_decode segment)).
  - rewrite <- Hv.
    rewrite (@get_current_user_decoded environ
               (Jws.jose_of mac allows loads enc) users_db _ now p n Hd' Hsub).
    rewrite (@get_current_user_decoded environ
               (Jws.jose_of mac allows loads enc) users_db _ now p n Hd Hsub).
    reflexivity.
  - exact (@get_current_user_undecodable environ
             (Jws.jose_of mac allows loads enc) users_db _ now JWTError Hd').
Qed.

Lemma signature_segment_mutation_witness :
  let signing_input :=
    "eyJhbGciOiJIUzI1NiIsInR5cCI6IkpXVCJ9.eyJzdWIiOiJ0ZXN0dXNlciIsImV4cCI6NDEwMjQ0NDgwMn0"
  in
  @get_current_user ∅ Jws.jose (@fake_users_db Reference.pwd_context)
    (signing_input +:+ ".xM7iFA2gHjuF38Nj6d349Nwb8qqCMlZc1dMAWwMf5lT")
    4102443100 = Raise credentials_exception.
Proof.
  cbv zeta.
  rewrite (@signature_segment_mutation Jws.hmac_sha256 Jws.header_allows
             Jws.loads_claims Jws.encode ∅
             (@fake_users_db Reference.pwd_context)
             "eyJhbGciOiJIUzI1NiIsInR5cCI6IkpXVCJ9.eyJzdWIiOiJ0ZXN0dXNlciIsImV4cCI6NDEwMjQ0NDgwMn0"
             "xM7iFA2gHjuF38Nj6d349Nwb8qqCMlZc1dMAWwMf5lU"
             "xM7iFA2gHjuF38Nj6d349Nwb8qqCMlZc1dMAWwMf5lT"
             4102443100
             {| username := "testuser";
                email := Some "testuser@example.com";
                full_name := Some "Test User";
                disabled := Some false;
                hashed_password := pwd_hash (CryptContext :=
                                     Reference.pwd_context) "testpassword" |});
    vm_compute; reflexivity.
Defined.

Lemma login_verify_raises_witness :
  @login_for_access_token Reference.environ Reference.jose
    Reference.pwd_context Reference.users_db "alice"
    (String Ascii.zero "wonderland") 1000 =
    Raise (PasslibException PasswordValueError) /\
  response_status
    (@login_for_access_token Reference.environ Reference.jose
       Reference.pwd_context Reference.users_db "alice"
       (String Ascii.zero "wonderland") 1000) = 500.
Proof.
  apply (@login_verify_raises Reference.environ Reference.jose
           Reference.pwd_context Reference.users_db "alice"
           (String Ascii.zero "wonderland") 1000 Reference.alice
           PasswordValueError);
    vm_compute; reflexivity.
Defined.
